(** * Mobile JKN sentiment dashboard: a model of [app.py]

    [app.py] is a Streamlit script.  One run of the script draws the page
    once: it loads the two pickled artifacts and the dataset, reads the
    widgets' current values and renders one of four views.  The model below
    follows the script statement by statement.

    - Everything the script calls but does not define ([joblib.load],
      [pandas.read_csv], [ast.literal_eval], [PIL.Image.open], the three
      methods of the artifacts, and the two methods of [str] whose result
      is only displayed, [upper] and [title]) is a field of the record
      [Lib].
    - A run is a computation in the monad [M]: it threads the script's
      global variables, appends to a trace of events (the [st.*] calls and
      the calls of the artifacts' methods, in program order) and either
      returns or raises a Python exception.
    - Python's [str] is [string], read as the UTF-8 encoding of the text:
      a character is one to four bytes.  Whitespace is Python's, over all
      of Unicode.  [lower] is only compared with ASCII literals and changes
      the ASCII letters only.
    - The decorators [st.cache_resource] and [st.cache_data] are not
      modelled: a run calls both loaders.  A second run starts from the
      globals the first one left, as it does with the cached objects. *)

From Stdlib Require Import String Ascii List Bool Arith NArith ZArith Lia.
From Stdlib Require Import QArith Qabs.
Import ListNotations.
Local Open Scope string_scope.
Local Open Scope list_scope.
Local Open Scope nat_scope.

Set Implicit Arguments.

(** ** Python strings *)

Module PyStr.

(** *** Characters *)

(** A continuation byte of a UTF-8 sequence: 0x80 to 0xBF. *)
Definition is_continuation (c : ascii) : bool :=
  let n := nat_of_ascii c in (128 <=? n) && (n <=? 191).

(** The characters of a string, each as the string of its bytes (a first
    byte and the continuation bytes that follow it): what iterating over a
    [str] yields. *)
Fixpoint chars (s : string) : list string :=
  match s with
  | EmptyString => []
  | String c s' =>
      match chars s' with
      | String d ch :: rest =>
          if is_continuation d then String c (String d ch) :: rest
          else String c EmptyString :: String d ch :: rest
      | rest => String c EmptyString :: rest
      end
  end.

(** The string made of the characters [l]. *)
Fixpoint of_chars (l : list string) : string :=
  match l with
  | [] => EmptyString
  | ch :: rest => (ch ++ of_chars rest)%string
  end.

(** The UTF-8 encoding of the code point [cp]. *)
Definition utf8 (cp : N) : string :=
  let byte (n : N) := ascii_of_N n in
  let tail (n : N) := byte (128 + n mod 64)%N in
  if (cp <? 128)%N then String (byte cp) EmptyString
  else if (cp <? 2048)%N then
    String (byte (192 + cp / 64)%N) (String (tail cp) EmptyString)
  else if (cp <? 65536)%N then
    String (byte (224 + cp / 4096)%N)
      (String (tail (cp / 64)%N) (String (tail cp) EmptyString))
  else
    String (byte (240 + cp / 262144)%N)
      (String (tail (cp / 4096)%N)
         (String (tail (cp / 64)%N) (String (tail cp) EmptyString))).

(** *** Whitespace *)

(** The code points for which [str.isspace] holds, which are the ones
    [str.strip] removes: TAB to CR, FS to US, the space, NEL, the
    no-break space, the Ogham space mark, EN QUAD to HAIR SPACE, the line
    and paragraph separators, the narrow no-break space, the medium
    mathematical space and the ideographic space. *)
Definition whitespace : list N :=
  [9; 10; 11; 12; 13; 28; 29; 30; 31; 32; 133; 160; 5760;
   8192; 8193; 8194; 8195; 8196; 8197; 8198; 8199; 8200; 8201; 8202;
   8232; 8233; 8239; 8287; 12288]%N.

(** [ch.isspace()] on one character. *)
Definition is_space (ch : string) : bool :=
  existsb (fun cp => String.eqb ch (utf8 cp)) whitespace.

Definition is_empty (s : string) : bool :=
  match s with EmptyString => true | String _ _ => false end.

Definition no_chars (l : list string) : bool :=
  match l with [] => true | _ :: _ => false end.

(** [s.lstrip()], [s.rstrip()] and [s.strip()], on the characters. *)
Fixpoint lstrip_chars (l : list string) : list string :=
  match l with
  | [] => []
  | ch :: rest => if is_space ch then lstrip_chars rest else l
  end.

Fixpoint rstrip_chars (l : list string) : list string :=
  match l with
  | [] => []
  | ch :: rest =>
      let r := rstrip_chars rest in
      if is_space ch && no_chars r then [] else ch :: r
  end.

Definition lstrip (s : string) : string := of_chars (lstrip_chars (chars s)).

Definition rstrip (s : string) : string := of_chars (rstrip_chars (chars s)).

Definition strip (s : string) : string :=
  of_chars (rstrip_chars (lstrip_chars (chars s))).

(** Truth value of a string in a condition: non-empty. *)
Definition truthy (s : string) : bool := negb (is_empty s).

(** Every character is whitespace. *)
Definition all_space (s : string) : bool := forallb is_space (chars s).

(** *** Letter case *)

Definition is_upper (c : ascii) : bool :=
  let n := nat_of_ascii c in (65 <=? n) && (n <=? 90).

Definition is_lower (c : ascii) : bool :=
  let n := nat_of_ascii c in (97 <=? n) && (n <=? 122).

(** The lower-case form of an ASCII capital; any other byte is kept. *)
Definition lower_char (c : ascii) : ascii :=
  if is_upper c then ascii_of_nat (nat_of_ascii c + 32) else c.

(** The capital of a lower-case ASCII letter; any other byte is kept.
    Used to spell the casings of an ASCII word. *)
Definition upper_char (c : ascii) : ascii :=
  if is_lower c then ascii_of_nat (nat_of_ascii c - 32) else c.

Fixpoint map_string (f : ascii -> ascii) (s : string) : string :=
  match s with
  | EmptyString => EmptyString
  | String c s' => String (f c) (map_string f s')
  end.

(** [s.lower()] as far as a comparison with an ASCII literal can tell: the
    ASCII capitals are lower-cased and every other byte is kept.  (The one
    character outside ASCII that Python lower-cases into ASCII is U+212A,
    to the letter k.) *)
Definition lower : string -> string := map_string lower_char.

(** [sep.join(parts)]. *)
Fixpoint join (sep : string) (parts : list string) : string :=
  match parts with
  | [] => EmptyString
  | [p] => p
  | p :: rest => (p ++ sep ++ join sep rest)%string
  end.

(** Every character is a lower-case letter. *)
Fixpoint all_lower (s : string) : bool :=
  match s with
  | EmptyString => true
  | String c s' => is_lower c && all_lower s'
  end.

(** [s] is [pat] written in some casing: same length, and each character
    of [s] is the lower-case or the upper-case form of the character of
    [pat] at that position.  ([pat] is given in lower case.) *)
Fixpoint any_casing (pat s : string) : Prop :=
  match pat, s with
  | EmptyString, EmptyString => True
  | String p pat', String c s' =>
      (c = p \/ c = upper_char p) /\ any_casing pat' s'
  | _, _ => False
  end.

End PyStr.

(** ** Python values, exceptions and results *)

(** Classes of the exceptions that can reach the script (all of them
    subclasses of [Exception]).  [OtherException] stands for any class not
    listed, named by its Python name (a pickle or CSV parser error, say). *)
Inductive exn_class : Type :=
| FileNotFoundError
| AttributeError
| IndexError
| KeyError
| TypeError
| ValueError
| SyntaxError
| OtherException (name : string).

(** An exception object: its class and [str(e)]. *)
Record exn : Type := Raise { exn_cls : exn_class; exn_str : string }.

Inductive result (A : Type) : Type :=
| Ok (a : A)
| Err (e : exn).
Arguments Ok {A} a.
Arguments Err {A} e.

(** [isinstance(e, FileNotFoundError)]: what [except FileNotFoundError]
    catches. *)
Definition is_file_not_found (e : exn) : bool :=
  match exn_cls e with FileNotFoundError => true | _ => false end.

(** [except Exception] catches every exception of the model. *)
Definition is_exception (e : exn) : bool := true.

(** The values the script inspects: strings, numbers, sequences (a list, a
    tuple or an array, with its items in order) and [None]. *)
#[warnings="-register-all"] Inductive pyobj : Type :=
| PyStr (s : string)
| PyNum (q : Q)
| PySeq (items : list pyobj)
| PyNone.

Module Builtins.

(** [v[0]]. *)
Definition getitem0 (v : pyobj) : result pyobj :=
  match v with
  | PySeq (x :: _) => Ok x
  | PySeq [] =>
      Err (Raise IndexError "index 0 is out of bounds for axis 0 with size 0")
  | PyStr s =>
      match PyStr.chars s with
      | ch :: _ => Ok (PyStr ch)
      | [] => Err (Raise IndexError "string index out of range")
      end
  | PyNum _ => Err (Raise TypeError "'float' object is not subscriptable")
  | PyNone => Err (Raise TypeError "'NoneType' object is not subscriptable")
  end.

(** The receiver of [v.lower()] and [v.upper()]: only a [str] has these
    methods. *)
Definition str_receiver (method : string) (v : pyobj) : result string :=
  match v with
  | PyStr s => Ok s
  | PyNum _ =>
      Err (Raise AttributeError
             ("'numpy.float64' object has no attribute '" ++ method ++ "'"))
  | PySeq _ =>
      Err (Raise AttributeError
             ("'numpy.ndarray' object has no attribute '" ++ method ++ "'"))
  | PyNone =>
      Err (Raise AttributeError
             ("'NoneType' object has no attribute '" ++ method ++ "'"))
  end.

(** The number shown by the replacement field [{abs(v):.2f}]: the
    absolute value of a number; [abs] or the format fails with a
    [TypeError] on anything else.  (Rounding to two decimals is left to
    the display.) *)
Definition format_abs (v : pyobj) : result Q :=
  match v with
  | PyNum q => Ok (Qabs q)
  | PyStr _ => Err (Raise TypeError "bad operand type for abs(): 'str'")
  | PySeq _ =>
      Err (Raise TypeError
             "unsupported format string passed to numpy.ndarray.__format__")
  | PyNone => Err (Raise TypeError "bad operand type for abs(): 'NoneType'")
  end.

(** The items of a sequence when all of them are [str]. *)
Fixpoint str_items (items : list pyobj) : option (list string) :=
  match items with
  | [] => Some []
  | PyStr s :: rest =>
      match str_items rest with
      | Some l => Some (s :: l)
      | None => None
      end
  | _ :: _ => None
  end.

(** [' '.join(v)]: [v] is iterated; a [str] yields its characters, a
    sequence its items, which must all be [str]. *)
Definition join_space (v : pyobj) : result string :=
  match v with
  | PyStr s => Ok (PyStr.join " " (PyStr.chars s))
  | PySeq items =>
      match str_items items with
      | Some l => Ok (PyStr.join " " l)
      | None =>
          Err (Raise TypeError "sequence item: expected str instance")
      end
  | PyNum _ | PyNone => Err (Raise TypeError "can only join an iterable")
  end.

End Builtins.

(** ** The dataset *)

(** A cell of the data frame: a string, a number or a missing value. *)
Inductive cell : Type :=
| CStr (s : string)
| CNum (q : Q)
| CNaN.

(** [a == b] on cells; a missing value equals nothing, itself included. *)
Definition cell_eqb (a b : cell) : bool :=
  match a, b with
  | CStr s, CStr t => String.eqb s t
  | CNum p, CNum q => Qeq_bool p q
  | _, _ => false
  end.

(** A data frame: its columns in order, each a name and its values. *)
Definition table : Type := list (string * list cell).

Module Frame.

(** [df.columns]. *)
Definition columns (df : table) : list string := map fst df.

(** [name in df.columns]. *)
Definition has_column (name : string) (df : table) : bool :=
  existsb (String.eqb name) (columns df).

(** [df[name]]: the column, or [KeyError]. *)
Fixpoint getitem (name : string) (df : table) : result (list cell) :=
  match df with
  | [] => Err (Raise KeyError ("'" ++ name ++ "'"))
  | (k, col) :: rest =>
      if String.eqb k name then Ok col else getitem name rest
  end.

(** [df[name] = col] for a column that exists: replaced in place. *)
Fixpoint setitem (name : string) (col : list cell) (df : table) : table :=
  match df with
  | [] => [(name, col)]
  | (k, old) :: rest =>
      if String.eqb k name then (k, col) :: rest
      else (k, old) :: setitem name col rest
  end.

(** [len(df)]: the number of rows. *)
Definition len (df : table) : nat :=
  match df with
  | [] => 0
  | (_, col) :: _ => length col
  end.

(** [df.head(n)]. *)
Definition head (n : nat) (df : table) : table :=
  map (fun kc => (fst kc, firstn n (snd kc))) df.

(** [col.unique()]: the distinct values in order of first appearance (a
    missing value is kept once). *)
Definition same_value (a b : cell) : bool :=
  match a, b with
  | CNaN, CNaN => true
  | _, _ => cell_eqb a b
  end.

Fixpoint unique_from (seen : list cell) (col : list cell) : list cell :=
  match col with
  | [] => []
  | x :: rest =>
      if existsb (same_value x) seen then unique_from seen rest
      else x :: unique_from (x :: seen) rest
  end.

Definition unique (col : list cell) : list cell := unique_from [] col.

(** [len(df[df[name] == v])]. *)
Definition count_eq (v : cell) (col : list cell) : nat :=
  length (filter (fun x => cell_eqb x v) col).

End Frame.

(** ** What the page shows and what the script calls *)

(** An image opened by [Image.open], named by its file. *)
Variant image : Type := Picture (file : string).

(** The HTML blocks passed to [st.markdown(..., unsafe_allow_html=True)].
    [ResultBox color emoji label confidence] is the prediction box: [label]
    is the text after [Hasil Prediksi:] and [confidence] the number after
    [Tingkat kepercayaan:]. *)
Inductive html : Type :=
| StyleSheet
| MainHeader
| SidebarBanner
| ResultBox (color emoji label : string) (confidence : Q)
| Footer.

(** The figures handed to [st.plotly_chart]; each is built from the value
    counts of a column, given here by the column itself. *)
Inductive figure : Type :=
| PxPie (title : string) (col : list cell)
| PxBar (title : string) (col : list cell)
| GoDonut (title : string) (col : list cell).

(** One event of a run, in program order.  [Columns] carries the relative
    widths: [st.columns(n)] is [n] ones. *)
Inductive event : Type :=
| SetPageConfig
| Html (block : html)
| Markdown (text : string)
| StError (text : string)
| StWarning (text : string)
| StInfo (text : string)
| DatasetInfo (rows cols : nat)
| SidebarRadio
| Columns (widths : list nat)
| Tabs (names : list string)
| SelectBox (label : string) (options : list nat)
| DataFrame (shown : table)
| DownloadButton (label : string) (data : table) (file_name mime : string)
| TextArea (label : string)
| Button (label : string)
| PlotlyChart (fig : figure)
| StImage (img : image)
| Metric (label : string) (value : nat) (delta_percent : Q)
| CallTransform (docs : list string)
| CallPredict
| CallDecisionFunction.

(** An event that is a call of one of the artifacts' methods. *)
Definition is_call (e : event) : bool :=
  match e with
  | CallTransform _ | CallPredict | CallDecisionFunction => true
  | _ => false
  end.

(** The entries of the sidebar menu. *)
Inductive menu : Type :=
| Dashboard
| Dataset
| PrediksiManual
| VisualisasiSentimen.

(** The values the widgets return in this run: the selected menu entry, the
    content of the text area, whether the button was just clicked, and the
    position selected in the row-count box. *)
Record ui : Type := UI {
  ui_option : menu;
  ui_user_input : string;
  ui_button : bool;
  ui_show_rows : nat
}.

(** The code the script calls and does not define.  [Obj] is the type of
    unpickled objects, [FV] of the matrices [transform] returns.  A method
    of an artifact returns its result and the object as the call leaves
    it.  [str_upper] and [str_title] are [str.upper] and [str.title],
    which follow the case tables of the interpreter's Unicode data. *)
Record Lib (Obj FV : Type) : Type := {
  joblib_load : string -> result Obj;
  read_csv : string -> result table;
  literal_eval : string -> result pyobj;
  image_open : string -> result image;
  transform : Obj -> list string -> result FV * Obj;
  predict : Obj -> FV -> result pyobj * Obj;
  decision_function : Obj -> FV -> result pyobj * Obj;
  str_upper : string -> string;
  str_title : string -> string
}.

(** The script's global variables [model], [vectorizer] and [df]. *)
Record globals (Obj : Type) : Type := Globals {
  g_model : option Obj;
  g_vectorizer : option Obj;
  g_df : option table
}.
Arguments Globals {Obj} _ _ _.

(** ** The monad of a run *)

Module Run.

Section Monad.
Context {Obj : Type}.

(** A computation: from the globals to the globals it leaves, the
    events it produced and its result.  An exception does not undo
    what happened before it. *)
Definition M (A : Type) : Type :=
  globals Obj -> globals Obj * list event * result A.

Definition ret {A} (a : A) : M A := fun g => (g, [], Ok a).

Definition bind {A B} (m : M A) (f : A -> M B) : M B :=
  fun g =>
    let '(g1, t1, r) := m g in
    match r with
    | Err e => (g1, t1, Err e)
    | Ok a => let '(g2, t2, r2) := f a g1 in (g2, t1 ++ t2, r2)
    end.

Definition emit (e : event) : M unit := fun g => (g, [e], Ok tt).

Definition lift {A} (r : result A) : M A := fun g => (g, [], r).

(** Reading the globals [model], [vectorizer] and [df]. *)
Definition get_model : M (option Obj) := fun g => (g, [], Ok (g_model g)).

Definition get_vectorizer : M (option Obj) :=
  fun g => (g, [], Ok (g_vectorizer g)).

Definition get_df : M (option table) := fun g => (g, [], Ok (g_df g)).

(** The assignments [model, vectorizer = ...] and [df = ...]. *)
Definition set_models (model vectorizer : option Obj) : M unit :=
  fun g => (Globals model vectorizer (g_df g), [], Ok tt).

Definition set_df (df : option table) : M unit :=
  fun g => (Globals (g_model g) (g_vectorizer g) df, [], Ok tt).

(** [try: body  except <catches> as e: handler e]. *)
Definition try_except {A} (body : M A) (catches : exn -> bool)
    (handler : exn -> M A) : M A :=
  fun g =>
    let '(g1, t1, r) := body g in
    match r with
    | Ok a => (g1, t1, Ok a)
    | Err e =>
        if catches e
        then let '(g2, t2, r2) := handler e g1 in (g2, t1 ++ t2, r2)
        else (g1, t1, Err e)
    end.

(** [for x in xs: body x]. *)
Fixpoint for_each {A} (xs : list A) (body : A -> M unit) : M unit :=
  match xs with
  | [] => ret tt
  | x :: rest => bind (body x) (fun _ => for_each rest body)
  end.

End Monad.

(** [Series.apply(f)]: [f] on each value in order; the first exception
    ends it. *)
Fixpoint apply (f : cell -> result cell) (col : list cell)
    : result (list cell) :=
  match col with
  | [] => Ok []
  | x :: rest =>
      match f x with
      | Err e => Err e
      | Ok y =>
          match apply f rest with
          | Err e => Err e
          | Ok ys => Ok (y :: ys)
          end
      end
  end.

End Run.

Notation "x <- m ;; k" := (Run.bind m (fun x => k))
  (at level 61, m at next level, right associativity).
Notation "m ;; k" := (Run.bind m (fun _ => k))
  (at level 61, right associativity).

(** The trace, the result and the globals a run ends with. *)
Definition trace_of {Obj A} (r : globals Obj * list event * result A)
    : list event := snd (fst r).
Definition result_of {Obj A} (r : globals Obj * list event * result A)
    : result A := snd r.
Definition globals_of {Obj A} (r : globals Obj * list event * result A)
    : globals Obj := fst (fst r).

(** ** The script *)

Module App.

Import PyStr Builtins.

(** Lines 202-210: the emoji and the colour chosen from the label. *)
Definition styling (hasil_prediksi : string) : string * string :=
  if String.eqb (lower hasil_prediksi) "positif" then ("😊", "#4CAF50")
  else if String.eqb (lower hasil_prediksi) "negatif" then ("😞", "#F44336")
  else ("😐", "#FF9800").

(** [sentiment.title()] on a cell of the [label] column, [title] being
    [str.title]. *)
Definition cell_title (title : string -> string) (sentiment : cell)
    : result string :=
  match sentiment with
  | CStr s => Ok (title s)
  | CNum _ | CNaN =>
      Err (Raise AttributeError "'float' object has no attribute 'title'")
  end.

(** [(count / total_data) * 100]. *)
Definition percentage_of (count total_data : nat) : result Q :=
  match total_data with
  | O => Err (Raise (OtherException "ZeroDivisionError") "division by zero")
  | S _ =>
      Ok ((inject_Z (Z.of_nat count) / inject_Z (Z.of_nat total_data))
          * 100)%Q
  end.

(** A missing value. *)
Definition is_missing (c : cell) : bool :=
  match c with CNaN => true | _ => false end.

(** [px.bar] on the value counts of a column (lines 244-251).
    [value_counts] leaves the missing values out; when no value is left
    (no row, or no label at all) [px.bar] raises [ValueError].  (The
    message is Plotly's and is not reproduced.) *)
Definition px_bar (title : string) (col : list cell) : result figure :=
  if forallb is_missing col
  then Err (Raise ValueError "px.bar: no value to plot")
  else Ok (PxBar title col).

(** [df.columns] and [df[name]] on the value of the global [df], which is
    a frame or [None]. *)
Definition df_columns (df : option table) : result (list string) :=
  match df with
  | Some t => Ok (Frame.columns t)
  | None =>
      Err (Raise AttributeError "'NoneType' object has no attribute 'columns'")
  end.

Definition df_getitem (name : string) (df : option table)
    : result (list cell) :=
  match df with
  | Some t => Frame.getitem name t
  | None => Err (Raise TypeError "'NoneType' object is not subscriptable")
  end.

Section Script.

Context {Obj FV : Type} (L : Lib Obj FV).

Local Abbreviation M := (@Run.M Obj).

(** Lines 79-87. *)
Definition load_models : M (option Obj * option Obj) :=
  Run.try_except
    (model <- Run.lift (joblib_load L "model/svm_model.pkl") ;;
     vectorizer <- Run.lift (joblib_load L "model/vectorizer.pkl") ;;
     Run.ret (Some model, Some vectorizer))
    is_file_not_found
    (fun _ =>
       Run.emit (StError "❌ Model atau vectorizer tidak ditemukan. Pastikan file ada di folder 'model/'") ;;
       Run.ret (None, None)).

(** Line 94, the function applied to each cell of [stemming]; the first
    branch is the one taken when [isinstance(x, str)]. *)
Definition stemming_lambda (x : cell) : result cell :=
  match x with
  | CStr s =>
      match literal_eval L s with
      | Err e => Err e
      | Ok tokens =>
          match join_space tokens with
          | Err e => Err e
          | Ok joined => Ok (CStr joined)
          end
      end
  | _ => Ok x
  end.

(** Lines 90-98. *)
Definition load_data : M (option table) :=
  Run.try_except
    (df <- Run.lift (read_csv L "data/hasil_preprocessing_mobile_jkn.csv") ;;
     col <- Run.lift (Frame.getitem "stemming" df) ;;
     col' <- Run.lift (Run.apply stemming_lambda col) ;;
     Run.ret (Some (Frame.setitem "stemming" col' df)))
    is_file_not_found
    (fun _ =>
       Run.emit (StError "❌ Dataset tidak ditemukan. Pastikan file ada di folder 'data/'") ;;
       Run.ret None).

(** Lines 122-137.  The branch reads [df.columns] and [df['label']]
    whatever [df] is. *)
Definition dashboard : M unit :=
  Run.emit (Markdown "### 📊 Distribusi Sentimen Cepat") ;;
  df <- Run.get_df ;;
  columns <- Run.lift (df_columns df) ;;
  if existsb (String.eqb "label") columns then
    col <- Run.lift (df_getitem "label" df) ;;
    Run.emit (PlotlyChart (PxPie "Distribusi Sentimen Mobile JKN" col))
  else Run.ret tt.

(** Lines 140-170. *)
Definition dataset (u : ui) : M unit :=
  Run.emit (Markdown "## 📄 Dataset Mobile JKN") ;;
  df <- Run.get_df ;;
  match df with
  | Some df =>
      Run.emit (Columns [2; 1]) ;;
      Run.emit (Markdown "### 📋 Informasi Dataset") ;;
      Run.emit (DatasetInfo (Frame.len df) (length (Frame.columns df))) ;;
      Run.emit (Markdown "### 🔍 Filter Data") ;;
      let options := [10; 20; 50; 100; Frame.len df] in
      Run.emit (SelectBox "Tampilkan baris:" options) ;;
      let show_rows := nth (ui_show_rows u) options 10 in
      Run.emit (Markdown "### 📊 Data Preview") ;;
      Run.emit (DataFrame (Frame.head show_rows df)) ;;
      Run.emit (DownloadButton "📥 Download Dataset" df
                  "mobile_jkn_dataset.csv" "text/csv")
  | None => Run.ret tt
  end.

(** [vectorizer.transform(docs)]. *)
Definition call_transform (docs : list string) : M FV :=
  fun g =>
    match g_vectorizer g with
    | Some v =>
        let '(r, v') := transform L v docs in
        (Globals (g_model g) (Some v') (g_df g), [CallTransform docs], r)
    | None =>
        (g, [],
         Err (Raise AttributeError
                "'NoneType' object has no attribute 'transform'"))
    end.

(** [model.predict(x)]. *)
Definition call_predict (x : FV) : M pyobj :=
  fun g =>
    match g_model g with
    | Some m =>
        let '(r, m') := predict L m x in
        (Globals (Some m') (g_vectorizer g) (g_df g), [CallPredict], r)
    | None =>
        (g, [],
         Err (Raise AttributeError
                "'NoneType' object has no attribute 'predict'"))
    end.

(** [model.decision_function(x)]. *)
Definition call_decision_function (x : FV) : M pyobj :=
  fun g =>
    match g_model g with
    | Some m =>
        let '(r, m') := decision_function L m x in
        (Globals (Some m') (g_vectorizer g) (g_df g),
         [CallDecisionFunction], r)
    | None =>
        (g, [],
         Err (Raise AttributeError
                "'NoneType' object has no attribute 'decision_function'"))
    end.

(** Lines 196-223, the body of the [try]. *)
Definition predict_block (user_input : string) : M unit :=
  input_vector <- call_transform [user_input] ;;
  labels <- call_predict input_vector ;;
  hasil_prediksi <- Run.lift (getitem0 labels) ;;
  margins <- call_decision_function input_vector ;;
  confidence <- Run.lift (getitem0 margins) ;;
  label <- Run.lift (str_receiver "lower" hasil_prediksi) ;;
  let '(emoji, color) := styling label in
  shown <- Run.lift (format_abs confidence) ;;
  Run.emit (Html (ResultBox color emoji (str_upper L label) shown)).

(** Lines 173-228. *)
Definition prediksi_manual (u : ui) : M unit :=
  Run.emit (Markdown "## 🧠 Prediksi Sentimen Manual") ;;
  model <- Run.get_model ;;
  vectorizer <- Run.get_vectorizer ;;
  match model, vectorizer with
  | Some _, Some _ =>
      Run.emit (Markdown "### ✍️ Masukkan Ulasan Anda") ;;
      Run.emit (Columns [3; 1]) ;;
      Run.emit (TextArea "Tulis ulasan tentang aplikasi Mobile JKN:") ;;
      Run.emit (Markdown "### 💡 Tips") ;;
      Run.emit (StInfo "Tulis ulasan yang jelas dan lengkap untuk hasil prediksi yang lebih akurat!") ;;
      Run.emit (Button "🔮 Prediksi Sentimen") ;;
      if ui_button u then
        if truthy (strip (ui_user_input u)) then
          Run.try_except
            (predict_block (ui_user_input u))
            is_exception
            (fun e =>
               Run.emit (StError ("❌ Terjadi kesalahan dalam prediksi: "
                                  ++ exn_str e)))
        else
          Run.emit (StWarning "⚠️ Silakan masukkan teks ulasan terlebih dahulu!")
      else Run.ret tt
  | _, _ => Run.ret tt
  end.

(** Lines 264-288, the word-cloud tab. *)
Definition word_clouds : M unit :=
  Run.emit (Markdown "### ☁️ Word Cloud Analysis") ;;
  Run.try_except
    (Run.emit (Columns [1; 1; 1]) ;;
     Run.emit (Markdown "#### 😊 Word Cloud Positif") ;;
     img_positive <- Run.lift (image_open L "images/positif.png") ;;
     Run.emit (StImage img_positive) ;;
     Run.emit (Markdown "#### 😞 Word Cloud Negatif") ;;
     img_negative <- Run.lift (image_open L "images/negatif.png") ;;
     Run.emit (StImage img_negative) ;;
     Run.emit (Markdown "#### 😐 Word Cloud Keseluruhan") ;;
     img_neutral <- Run.lift (image_open L "images/seluruh kata.png") ;;
     Run.emit (StImage img_neutral))
    is_file_not_found
    (fun _ =>
       Run.emit (StError "❌ Gambar word cloud tidak ditemukan. Pastikan file ada di folder 'images/'") ;;
       Run.emit (StInfo "📁 File yang dibutuhkan: wordcloud_positif.png, wordcloud_negatif.png, wordcloud_netral.png")).

(** Lines 298-306, one turn of the loop over the labels. *)
Definition sentiment_metric (total_data : nat) (col : list cell)
    (sentiment : cell) : M unit :=
  let count := Frame.count_eq sentiment col in
  percentage <- Run.lift (percentage_of count total_data) ;;
  label <- Run.lift (cell_title (str_title L) sentiment) ;;
  Run.emit (Metric label count percentage).

(** Lines 231-319. *)
Definition visualisasi : M unit :=
  Run.emit (Markdown "## 📈 Visualisasi Hasil Sentimen") ;;
  df <- Run.get_df ;;
  match df with
  | Some df =>
      if Frame.has_column "label" df then
        Run.emit (Tabs ["📊 Distribusi Sentimen"; "☁️ Word Cloud";
                        "📈 Analisis Detail"]) ;;
        Run.emit (Columns [1; 1]) ;;
        sentiment_count <- Run.lift (Frame.getitem "label" df) ;;
        fig_bar <- Run.lift (px_bar "📊 Distribusi Sentimen (Bar Chart)"
                               sentiment_count) ;;
        Run.emit (PlotlyChart fig_bar) ;;
        Run.emit (PlotlyChart
                    (PxPie "🥧 Distribusi Sentimen (Pie Chart)"
                       sentiment_count)) ;;
        word_clouds ;;
        Run.emit (Markdown "### 📈 Analisis Detail") ;;
        Run.emit (Columns [1; 1]) ;;
        Run.emit (Markdown "#### 📊 Statistik Sentimen") ;;
        let total_data := Frame.len df in
        Run.for_each (Frame.unique sentiment_count)
          (sentiment_metric total_data sentiment_count) ;;
        Run.emit (PlotlyChart
                    (GoDonut "🍩 Donut Chart Sentimen" sentiment_count))
      else Run.ret tt
  | None => Run.ret tt
  end.

(** Lines 122-231: the view selected in the sidebar. *)
Definition view (u : ui) : M unit :=
  match ui_option u with
  | Dashboard => dashboard
  | Dataset => dataset u
  | PrediksiManual => prediksi_manual u
  | VisualisasiSentimen => visualisasi
  end.

(** Lines 107-329: the page once the globals are bound. *)
Definition page (u : ui) : M unit :=
  Run.emit (Html SidebarBanner) ;;
  Run.emit SidebarRadio ;;
  view u ;;
  Run.emit (Markdown "---") ;;
  Run.emit (Html Footer).

(** Lines 104-105: the two loads and the assignments of their
    results. *)
Definition load_globals : M unit :=
  loaded <- load_models ;;
  Run.set_models (fst loaded) (snd loaded) ;;
  df <- load_data ;;
  Run.set_df df.

(** The whole script. *)
Definition script (u : ui) : M unit :=
  Run.emit SetPageConfig ;;
  Run.emit (Html StyleSheet) ;;
  Run.emit (Html MainHeader) ;;
  load_globals ;;
  page u.

(** One run of the script, from unbound globals. *)
Definition run (u : ui) : globals Obj * list event * result unit :=
  script u (Globals None None None).

End Script.

End App.

(** ** Fixtures: small concrete libraries to run the script on *)

Module Fixture.

Import PyStr.

(** A reader for the serialized token lists of the dataset, such as
    ['aplikasi', 'bagus']: single-quoted tokens without quotes or
    backslashes inside, separated by a comma and a space, between
    brackets.  It stands for [ast.literal_eval] on that fragment and
    raises [SyntaxError] elsewhere. *)
Inductive lex_state : Type :=
| AtStart
| AfterOpen
| InToken (acc : string)
| AfterToken
| AfterComma
| AfterSpace
| AtEnd
| Failed.

Definition rev_string (s : string) : string :=
  string_of_list_ascii (rev (list_ascii_of_string s)).

Definition lex_step (st : lex_state) (c : ascii)
    : lex_state * option string :=
  match st with
  | AtStart => if Ascii.eqb c "[" then (AfterOpen, None) else (Failed, None)
  | AfterOpen =>
      if Ascii.eqb c "'" then (InToken "", None)
      else if Ascii.eqb c "]" then (AtEnd, None)
      else (Failed, None)
  | InToken acc =>
      if Ascii.eqb c "'" then (AfterToken, Some (rev_string acc))
      else if Ascii.eqb c "\" then (Failed, None)
      else (InToken (String c acc), None)
  | AfterToken =>
      if Ascii.eqb c "," then (AfterComma, None)
      else if Ascii.eqb c "]" then (AtEnd, None)
      else (Failed, None)
  | AfterComma =>
      if Ascii.eqb c " " then (AfterSpace, None) else (Failed, None)
  | AfterSpace =>
      if Ascii.eqb c "'" then (InToken "", None) else (Failed, None)
  | AtEnd => (Failed, None)
  | Failed => (Failed, None)
  end.

Fixpoint lex (st : lex_state) (s : string) : option (list string) :=
  match s with
  | EmptyString =>
      match st with AtEnd => Some [] | _ => None end
  | String c s' =>
      let '(st', tok) := lex_step st c in
      match lex st' s', tok with
      | Some toks, Some t => Some (t :: toks)
      | Some toks, None => Some toks
      | None, _ => None
      end
  end.

Definition token_list_eval (s : string) : result pyobj :=
  match lex AtStart s with
  | Some toks => Ok (PySeq (map PyStr toks))
  | None => Err (Raise SyntaxError "invalid syntax")
  end.

(** [str.upper] and [str.title] on ASCII text, which is what the labels
    of the fixtures are: a letter is an ASCII letter, every other byte is
    kept.  In [title] a letter is upper-cased when the character before it
    is not a letter, lower-cased otherwise. *)
Definition ascii_upper : string -> string := map_string upper_char.

Fixpoint ascii_title_from (prev_cased : bool) (s : string) : string :=
  match s with
  | EmptyString => EmptyString
  | String c s' =>
      let cased := is_upper c || is_lower c in
      String (if prev_cased then lower_char c else upper_char c)
             (ascii_title_from cased s')
  end.

Definition ascii_title : string -> string := ascii_title_from false.

(** Artifacts of the fixtures: an object is named by the file it was
    loaded from, a feature matrix is the list of documents. *)
Definition model_file : string := "model/svm_model.pkl".
Definition vectorizer_file : string := "model/vectorizer.pkl".
Definition dataset_file : string := "data/hasil_preprocessing_mobile_jkn.csv".

Definition not_found (file : string) : exn :=
  Raise FileNotFoundError
    ("[Errno 2] No such file or directory: '" ++ file ++ "'").

Definition reviews : table :=
  [ ("content", [CStr "Aplikasi bagus"; CStr "Sering error"; CStr "ok"]);
    ("stemming", [CStr "['aplikasi', 'bagus']"; CStr "['sering', 'error']";
                  CNaN]);
    ("label", [CStr "positif"; CStr "negatif"; CStr "positif"]) ].

(** The toy classifier: a review that contains no [x] is [Positif] with
    margin 3/2, any other is [NEGATIF] with margin -5/4. *)
Fixpoint mentions_x (s : string) : bool :=
  match s with
  | EmptyString => false
  | String c s' => Ascii.eqb c "x" || mentions_x s'
  end.

Definition toy_predict (docs : list string) : pyobj :=
  PySeq (map (fun d => PyStr (if mentions_x d then "NEGATIF" else "Positif"))
           docs).

Definition toy_margin (docs : list string) : pyobj :=
  PySeq (map (fun d => PyNum (if mentions_x d then -5 # 4 else 3 # 2)) docs).

Definition files_present (file : string) : result string := Ok file.

(** Everything in place. *)
Definition healthy : Lib string (list string) := {|
  joblib_load := files_present;
  read_csv := fun _ => Ok reviews;
  literal_eval := token_list_eval;
  image_open := fun file => Ok (Picture file);
  transform := fun v docs => (Ok docs, v);
  predict := fun m x => (Ok (toy_predict x), m);
  decision_function := fun m x => (Ok (toy_margin x), m);
  str_upper := ascii_upper;
  str_title := ascii_title
|}.

(** One field of a library replaced. *)
Definition with_joblib_load {Obj FV} (f : string -> result Obj)
    (L : Lib Obj FV) : Lib Obj FV := {|
  joblib_load := f;
  read_csv := read_csv L;
  literal_eval := literal_eval L;
  image_open := image_open L;
  transform := transform L;
  predict := predict L;
  decision_function := decision_function L;
  str_upper := str_upper L;
  str_title := str_title L
|}.

Definition with_read_csv {Obj FV} (f : string -> result table)
    (L : Lib Obj FV) : Lib Obj FV := {|
  joblib_load := joblib_load L;
  read_csv := f;
  literal_eval := literal_eval L;
  image_open := image_open L;
  transform := transform L;
  predict := predict L;
  decision_function := decision_function L;
  str_upper := str_upper L;
  str_title := str_title L
|}.

Definition with_decision_function {Obj FV}
    (f : Obj -> FV -> result pyobj * Obj) (L : Lib Obj FV) : Lib Obj FV := {|
  joblib_load := joblib_load L;
  read_csv := read_csv L;
  literal_eval := literal_eval L;
  image_open := image_open L;
  transform := transform L;
  predict := predict L;
  decision_function := f;
  str_upper := str_upper L;
  str_title := str_title L
|}.

(** A classifier of three classes: [decision_function] returns one row of
    three margins for each document. *)
Definition three_classes : Lib string (list string) :=
  with_decision_function
    (fun m docs =>
       (Ok (PySeq (map (fun _ => PySeq [PyNum (-1 # 2); PyNum (3 # 2);
                                        PyNum (-2 # 1)]) docs)), m))
    healthy.

(** A classifier that counts its calls: the object is renamed by each
    [predict]. *)
Definition counting : Lib string (list string) := {|
  joblib_load := files_present;
  read_csv := fun _ => Ok reviews;
  literal_eval := token_list_eval;
  image_open := fun file => Ok (Picture file);
  transform := fun v docs => (Ok docs, v);
  predict := fun m x => (Ok (PySeq [PyStr m]), (m ++ "+")%string);
  decision_function := fun m x => (Ok (toy_margin x), m);
  str_upper := ascii_upper;
  str_title := ascii_title
|}.

(** The folder [model/] is empty. *)
Definition no_artifacts : Lib string (list string) :=
  with_joblib_load (fun file => Err (not_found file)) healthy.



(** The folder [data/] is empty. *)
Definition no_dataset : Lib string (list string) :=
  with_read_csv (fun file => Err (not_found file)) healthy.

(** The dataset file is there but is not a CSV table. *)
Definition parser_error : exn :=
  Raise (OtherException "ParserError") "Error tokenizing data.".

Definition unparsable_dataset : Lib string (list string) :=
  with_read_csv (fun _ => Err parser_error) healthy.

(** A [stemming] cell that is not a serialized list. *)
Definition bad_stemming : Lib string (list string) :=
  with_read_csv
    (fun _ => Ok [("stemming", [CStr "['ok']"; CStr "aplikasi bagus"]);
                  ("label", [CStr "positif"; CStr "positif"])])
    healthy.

Definition click (text : string) : ui := UI PrediksiManual text true 0.

(** The globals before the loads, and after both artifacts were loaded. *)
Definition unbound_globals : globals string := Globals None None None.

Definition loaded_globals : globals string :=
  Globals (Some model_file) (Some vectorizer_file) None.

End Fixture.

(** ** Vocabulary of the statements *)

Module Props.

Section Invariants.

Context {Obj : Type}.

(** Every event a computation produces satisfies [P], whatever the
    globals it starts from and however it ends. *)
Definition traces (P : event -> Prop) {A} (m : @Run.M Obj A) : Prop :=
  forall g, Forall P (trace_of (m g)).

(** A computation leaves the globals as it found them. *)
Definition keeps {A} (m : @Run.M Obj A) : Prop :=
  forall g, globals_of (m g) = g.

(** A computation leaves the global [df] as it found it. *)
Definition keeps_df {A} (m : @Run.M Obj A) : Prop :=
  forall g, g_df (globals_of (m g)) = g_df g.

(** A computation leaves the globals as it found them, and its events
    and result depend on [df] alone, not on [model] or [vectorizer]. *)
Definition df_only {A} (m : @Run.M Obj A) : Prop :=
  forall df, exists t r, forall model vectorizer,
    m (Globals model vectorizer df) = (Globals model vectorizer df, t, r).

End Invariants.

(** The confidence in a prediction box is not negative. *)
Definition nonneg_confidence (e : event) : Prop :=
  match e with
  | Html (ResultBox _ _ _ confidence) => (0 <= confidence)%Q
  | _ => True
  end.

(** The events of the prediction feature: the text area, the button and
    the calls of the artifacts' methods. *)
Definition prediction_event (e : event) : bool :=
  match e with
  | TextArea _ | Button _ => true
  | _ => is_call e
  end.

(** An event that no part of the prediction feature produces: not the
    text area, the button or a call of an artifact, and not a prediction
    box. *)
Definition outside_prediction (e : event) : Prop :=
  prediction_event e = false /\
  match e with
  | Html (ResultBox _ _ _ _) => False
  | _ => True
  end.

(** The heading of the Manual Prediction view, and the heading followed
    by the form (lines 174-193). *)
Definition prediction_heading : list event :=
  [Markdown "## 🧠 Prediksi Sentimen Manual"].

Definition prediction_form : list event :=
  prediction_heading ++
  [Markdown "### ✍️ Masukkan Ulasan Anda";
   Columns [3; 1];
   TextArea "Tulis ulasan tentang aplikasi Mobile JKN:";
   Markdown "### 💡 Tips";
   StInfo "Tulis ulasan yang jelas dan lengkap untuk hasil prediksi yang lebih akurat!";
   Button "🔮 Prediksi Sentimen"].

Definition empty_input_prompt : event :=
  StWarning "⚠️ Silakan masukkan teks ulasan terlebih dahulu!".

Definition models_not_found : event :=
  StError "❌ Model atau vectorizer tidak ditemukan. Pastikan file ada di folder 'model/'".

Definition dataset_not_found : event :=
  StError "❌ Dataset tidak ditemukan. Pastikan file ada di folder 'data/'".

(** The three presentation categories: emoji and colour. *)
Definition positive_style : string * string := ("😊", "#4CAF50").
Definition negative_style : string * string := ("😞", "#F44336").
Definition neutral_style : string * string := ("😐", "#FF9800").

(** The artifacts' methods leave the object they are called on as it
    was. *)
Definition read_only {Obj FV} (L : Lib Obj FV) : Prop :=
  (forall v docs, snd (transform L v docs) = v) /\
  (forall m x, snd (predict L m x) = m) /\
  (forall m x, snd (decision_function L m x) = m).

(** The tokens in their order with one space before each of them. *)
Fixpoint each_after_space (tokens : list string) : string :=
  match tokens with
  | [] => ""
  | t :: rest => String " " (t ++ each_after_space rest)
  end.

(** The tokens in their order, separated by single spaces: the first
    token as it is, every later one after one space.  No token gives the
    empty string, one token gives that token. *)
Definition space_separated (tokens : list string) : string :=
  match tokens with
  | [] => ""
  | t :: rest => t ++ each_after_space rest
  end.

(** [after] is what a [stemming] cell [before] becomes: a string that is
    a serialized sequence of tokens becomes the tokens separated by
    single spaces, a cell that is not a string stays. *)
Definition deserialized {Obj FV} (L : Lib Obj FV) (before after : cell)
    : Prop :=
  match before with
  | CStr x =>
      exists tokens,
        literal_eval L x = Ok (PySeq (map PyStr tokens)) /\
        after = CStr (space_separated tokens)
  | _ => after = before
  end.

(** [load_models] finds one of the two files missing: the first load
    raises [FileNotFoundError], or it succeeds and the second raises
    it. *)
Definition artifact_missing {Obj FV} (L : Lib Obj FV) : Prop :=
  (exists e, joblib_load L "model/svm_model.pkl" = Err e /\
             is_file_not_found e = true) \/
  (exists m e, joblib_load L "model/svm_model.pkl" = Ok m /\
               joblib_load L "model/vectorizer.pkl" = Err e /\
               is_file_not_found e = true).

End Props.

(** ** Vocabulary of the further statements *)

Module Shape.

Import Fixture.

Section Invariants.

Context {Obj : Type}.

(** A computation never raises. *)
Definition returns {A} (m : @Run.M Obj A) : Prop :=
  forall g, exists a, result_of (m g) = Ok a.




End Invariants.

(** The calls a trace contains, in order. *)
Definition calls_of (t : list event) : list event := filter is_call t.

(** The three calls of a prediction on [text], in program order. *)
Definition call_sequence (text : string) : list event :=
  [CallTransform [text]; CallPredict; CallDecisionFunction].

(** The notice of line 226 for the exception [e]. *)
Definition prediction_error (e : exn) : event :=
  StError ("❌ Terjadi kesalahan dalam prediksi: " ++ exn_str e).

(** The answers to a click: the empty-input warning, the notice of a
    failed prediction, or the prediction box. *)
Definition is_answer (e : event) : bool :=
  match e with
  | StWarning _ | StError _ | Html (ResultBox _ _ _ _) => true
  | _ => false
  end.

(** The events of the Dataset view before the table (lines 141-156), for a
    frame of [rows] rows and [cols] columns. *)
Definition dataset_preamble (rows cols : nat) : list event :=
  [Markdown "## 📄 Dataset Mobile JKN";
   Columns [2; 1];
   Markdown "### 📋 Informasi Dataset";
   DatasetInfo rows cols;
   Markdown "### 🔍 Filter Data";
   SelectBox "Tampilkan baris:" [10; 20; 50; 100; rows];
   Markdown "### 📊 Data Preview"].

Definition download_button (df : table) : event :=
  DownloadButton "📥 Download Dataset" df "mobile_jkn_dataset.csv" "text/csv".

(** The number of rows the selection box returns. *)
Definition selected_rows (u : ui) (df : table) : nat :=
  nth (ui_show_rows u) [10; 20; 50; 100; Frame.len df] 10.

(** Every column of a frame has the frame's number of rows. *)
Definition rectangular (df : table) : Prop :=
  Forall (fun kc => length (snd kc) = Frame.len df) df.

Definition is_string_cell (c : cell) : bool :=
  match c with CStr _ => true | _ => false end.

(** The metrics a trace shows: label, value and percentage. *)
Definition metrics_of (t : list event) : list (string * nat * Q) :=
  flat_map (fun e => match e with
                     | Metric label value delta => [(label, value, delta)]
                     | _ => []
                     end) t.

(** The metric of lines 299-306 for the label [c] in the column [col] of a
    frame of [total] rows, [title] being [str.title]. *)
Definition metric_of (title : string -> string) (total : nat)
    (col : list cell) (c : cell) : string * nat * Q :=
  (match c with CStr s => title s | _ => EmptyString end,
   Frame.count_eq c col,
   (inject_Z (Z.of_nat (Frame.count_eq c col)) / inject_Z (Z.of_nat total)
    * 100)%Q).

(** The same as the event [st.metric] produces. *)
Definition metric_event (title : string -> string) (total : nat)
    (col : list cell) (c : cell) : event :=
  Metric (fst (fst (metric_of title total col c)))
         (snd (fst (metric_of title total col c)))
         (snd (metric_of title total col c)).

(** The events of the Visualisation view up to the first word cloud
    (lines 265-272). *)
Definition first_cloud_head : list event :=
  [Markdown "### ☁️ Word Cloud Analysis";
   Columns [1; 1; 1];
   Markdown "#### 😊 Word Cloud Positif"].

(** An event that is not the footer of the page. *)
Definition not_footer (e : event) : Prop := e <> Html Footer.

Definition is_error_notice (e : event) : bool :=
  match e with StError _ => true | _ => false end.

(** The events of the Visualisation view before the word clouds (lines
    232-262) and between the word clouds and the metrics (lines 291-297),
    for the column [col] of labels. *)
Definition charts_tab (col : list cell) : list event :=
  [Markdown "## 📈 Visualisasi Hasil Sentimen";
   Tabs ["📊 Distribusi Sentimen"; "☁️ Word Cloud"; "📈 Analisis Detail"];
   Columns [1; 1];
   PlotlyChart (PxBar "📊 Distribusi Sentimen (Bar Chart)" col);
   PlotlyChart (PxPie "🥧 Distribusi Sentimen (Pie Chart)" col)].

Definition detail_tab_head : list event :=
  [Markdown "### 📈 Analisis Detail";
   Columns [1; 1];
   Markdown "#### 📊 Statistik Sentimen"].

Definition donut (col : list cell) : event :=
  PlotlyChart (GoDonut "🍩 Donut Chart Sentimen" col).

Definition sum_values (ms : list (string * nat * Q)) : nat :=
  fold_right (fun m acc => snd (fst m) + acc) 0 ms.

Definition sum_percentages (ms : list (string * nat * Q)) : Q :=
  fold_right (fun m acc => (snd m + acc)%Q) 0%Q ms.

(** The only way [Image.open] fails is a missing file. *)
Definition only_missing_images {Obj FV} (L : Lib Obj FV) : Prop :=
  forall file e, image_open L file = Err e -> is_file_not_found e = true.

(** The notices of lines 287-288. *)
Definition images_not_found : list event :=
  [StError "❌ Gambar word cloud tidak ditemukan. Pastikan file ada di folder 'images/'";
   StInfo "📁 File yang dibutuhkan: wordcloud_positif.png, wordcloud_negatif.png, wordcloud_netral.png"].

Definition is_image (e : event) : bool :=
  match e with StImage _ => true | _ => false end.

(** A chart drawn by [st.plotly_chart]. *)
Definition is_chart (e : event) : bool :=
  match e with PlotlyChart _ => true | _ => false end.

(** *** More fixtures *)

(** The vectorizer rejects every document. *)
Definition vocabulary_error : exn :=
  Raise ValueError "empty vocabulary; perhaps the documents only contain stop words".

Definition failing_transform : Lib string (list string) := {|
  joblib_load := joblib_load healthy;
  read_csv := read_csv healthy;
  literal_eval := literal_eval healthy;
  image_open := image_open healthy;
  transform := fun v docs => (Err vocabulary_error, v);
  predict := predict healthy;
  decision_function := decision_function healthy;
  str_upper := str_upper healthy;
  str_title := str_title healthy
|}.

(** The classifier rejects every matrix. *)
Definition shape_error : exn :=
  Raise ValueError "X has 1 features, but SVC is expecting 5000 features as input.".

Definition failing_predict : Lib string (list string) := {|
  joblib_load := joblib_load healthy;
  read_csv := read_csv healthy;
  literal_eval := literal_eval healthy;
  image_open := image_open healthy;
  transform := transform healthy;
  predict := fun m x => (Err shape_error, m);
  decision_function := decision_function healthy;
  str_upper := str_upper healthy;
  str_title := str_title healthy
|}.

(** The classifier returns no label. *)
Definition empty_predict : Lib string (list string) := {|
  joblib_load := joblib_load healthy;
  read_csv := read_csv healthy;
  literal_eval := literal_eval healthy;
  image_open := image_open healthy;
  transform := transform healthy;
  predict := fun m x => (Ok (PySeq []), m);
  decision_function := decision_function healthy;
  str_upper := str_upper healthy;
  str_title := str_title healthy
|}.


(** The first word cloud is there but is not an image. *)
Definition unidentified_image : exn :=
  Raise (OtherException "UnidentifiedImageError")
    "cannot identify image file 'images/positif.png'".

Definition unreadable_image : Lib string (list string) := {|
  joblib_load := joblib_load healthy;
  read_csv := read_csv healthy;
  literal_eval := literal_eval healthy;
  image_open := fun file =>
    if String.eqb file "images/positif.png" then Err unidentified_image
    else Ok (Picture file);
  transform := transform healthy;
  predict := predict healthy;
  decision_function := decision_function healthy;
  str_upper := str_upper healthy;
  str_title := str_title healthy
|}.

(** A dataset with a row whose label is missing. *)
Definition unlabelled_row : table :=
  [ ("stemming", [CStr "['aplikasi', 'bagus']"; CStr "['ok']"]);
    ("label", [CStr "positif"; CNaN]) ].

(** A dataset without the [stemming] column. *)
Definition no_stemming_column : table :=
  [ ("content", [CStr "Aplikasi bagus"]); ("label", [CStr "positif"]) ].

(** A dataset whose [stemming] cells are all missing. *)
Definition blank_stemming : table :=
  [ ("stemming", [CNaN; CNaN]); ("label", [CStr "positif"; CStr "negatif"]) ].

Definition without_stemming : Lib string (list string) :=
  with_read_csv (fun _ => Ok no_stemming_column) healthy.

Definition with_blank_stemming : Lib string (list string) :=
  with_read_csv (fun _ => Ok blank_stemming) healthy.

(** The reviews of the healthy fixture as [load_data] returns them. *)
Definition stemmed_reviews : table :=
  [ ("content", [CStr "Aplikasi bagus"; CStr "Sering error"; CStr "ok"]);
    ("stemming", [CStr "aplikasi bagus"; CStr "sering error"; CNaN]);
    ("label", [CStr "positif"; CStr "negatif"; CStr "positif"]) ].

End Shape.

(** ** Strings *)

Module PyStrFacts.

Import PyStr.

(** The encoder on a character of each length, against the literals. *)
Lemma utf8_examples :
  utf8 97 = "a"%string /\ utf8 233 = "é"%string /\
  utf8 8364 = "€"%string /\ utf8 128522 = "😊"%string.
Proof. repeat split. Qed.

(** A text of four characters of one to four bytes has four characters,
    and its first character is what [s[0]] is. *)
Lemma chars_examples :
  chars "aé€😊" = ["a"; "é"; "€"; "😊"]%string /\
  Builtins.getitem0 (PyStr "écran") = Ok (PyStr "é").
Proof. split; reflexivity. Qed.

(** [strip] removes the blanks of Unicode at both ends, keeps them inside
    the text, and keeps every other character. *)
Lemma strip_examples :
  strip (utf8 160 ++ " bagus" ++ utf8 12288 ++ "sekali" ++ utf8 8195 ++ " ")
    = ("bagus" ++ utf8 12288 ++ "sekali")%string
  /\ strip "à" = "à"%string
  /\ all_space (utf8 133 ++ utf8 5760 ++ utf8 8232) = true
  /\ all_space "à" = false.
Proof. repeat split. Qed.

(** The characters of a string, put together again, are the string. *)
Lemma of_chars_chars (s : string) : of_chars (chars s) = s.
Proof.
  induction s as [|c s IH]; [reflexivity|].
  cbn [chars]. destruct (chars s) as [|[|d ch] rest].
  - simpl in *. subst s. reflexivity.
  - simpl in *. subst s. reflexivity.
  - destruct (is_continuation d); simpl in *; subst s; reflexivity.
Qed.

Lemma chars_nonempty (s : string) :
  Forall (fun ch => is_empty ch = false) (chars s).
Proof.
  induction s as [|c s IH]; [constructor|].
  cbn [chars]. destruct (chars s) as [|[|d ch] rest].
  - repeat constructor.
  - constructor; [reflexivity | assumption].
  - inversion IH; subst.
    destruct (is_continuation d); repeat (constructor; try assumption).
Qed.

Lemma lstrip_chars_keeps (P : string -> Prop) (l : list string) :
  Forall P l -> Forall P (lstrip_chars l).
Proof.
  induction 1 as [|ch l Hch Hl IH]; simpl; [constructor|].
  destruct (is_space ch); [assumption | constructor; assumption].
Qed.

Lemma rstrip_chars_keeps (P : string -> Prop) (l : list string) :
  Forall P l -> Forall P (rstrip_chars l).
Proof.
  induction 1 as [|ch l Hch Hl IH]; simpl; [constructor|].
  destruct (is_space ch && no_chars (rstrip_chars l));
    constructor; assumption.
Qed.

Lemma of_chars_empty (l : list string) :
  Forall (fun ch => is_empty ch = false) l ->
  is_empty (of_chars l) = no_chars l.
Proof.
  intros H. destruct H as [|ch l Hch _]; [reflexivity|].
  simpl. destruct ch; [discriminate | reflexivity].
Qed.

Lemma lstrip_chars_space (l : list string) :
  forallb is_space (lstrip_chars l) = forallb is_space l.
Proof.
  induction l as [|ch l IH]; simpl; [reflexivity|].
  destruct (is_space ch) eqn:Hc; simpl; [assumption|].
  rewrite Hc. reflexivity.
Qed.

Lemma rstrip_chars_none (l : list string) :
  no_chars (rstrip_chars l) = forallb is_space l.
Proof.
  induction l as [|ch l IH]; simpl; [reflexivity|].
  rewrite <- IH.
  destruct (is_space ch), (no_chars (rstrip_chars l)); reflexivity.
Qed.

(** [s.strip()] is empty exactly when [s] is made of whitespace. *)
Lemma strip_empty_iff (s : string) :
  truthy (strip s) = negb (all_space s).
Proof.
  unfold truthy, strip, all_space.
  rewrite of_chars_empty
    by (apply rstrip_chars_keeps, lstrip_chars_keeps, chars_nonempty).
  rewrite rstrip_chars_none, lstrip_chars_space. reflexivity.
Qed.

Lemma is_empty_true (s : string) : is_empty s = true <-> s = EmptyString.
Proof. destruct s; simpl; split; congruence. Qed.

Lemma lower_of_lower (p : ascii) :
  is_lower p = true -> lower_char p = p.
Proof.
  destruct p as [[] [] [] [] [] [] [] []]; vm_compute; congruence.
Qed.

Lemma lower_of_upper_of_lower (p : ascii) :
  is_lower p = true -> lower_char (upper_char p) = p.
Proof.
  destruct p as [[] [] [] [] [] [] [] []]; vm_compute; congruence.
Qed.

Lemma lower_char_inv (c : ascii) :
  is_lower (lower_char c) = true ->
  c = lower_char c \/ c = upper_char (lower_char c).
Proof.
  destruct c as [[] [] [] [] [] [] [] []]; vm_compute; auto.
Qed.

Lemma lower_cons (c : ascii) (s : string) :
  lower (String c s) = String (lower_char c) (lower s).
Proof. reflexivity. Qed.

(** For a pattern of lower-case letters, the strings whose [lower()] is
    the pattern are the casings of the pattern. *)
Lemma lower_eq_any_casing (pat : string) :
  all_lower pat = true ->
  forall s, lower s = pat <-> any_casing pat s.
Proof.
  induction pat as [|p pat IH]; intros Hpat s.
  - destruct s; simpl; split; try congruence; try tauto; discriminate.
  - simpl in Hpat. apply andb_prop in Hpat as [Hp Hrest].
    destruct s as [|c s]; [simpl; split; [discriminate | tauto]|].
    rewrite lower_cons. cbn [any_casing].
    split.
    + intros H. injection H as Hc Hs. split.
      * subst p. apply lower_char_inv. assumption.
      * apply IH; assumption.
    + intros [[Hc | Hc] Hs].
      * subst c. rewrite lower_of_lower by assumption.
        f_equal. apply IH; assumption.
      * subst c. rewrite lower_of_upper_of_lower by assumption.
        f_equal. apply IH; assumption.
Qed.

End PyStrFacts.

(** ** Computations: how the three invariants compose *)

Module RunFacts.

Import Props.

Section Facts.

Context {Obj : Type}.
Local Abbreviation M := (@Run.M Obj).

Variable P : event -> Prop.

Lemma traces_ret {A} (a : A) : traces P (Run.ret a : M A).
Proof. intros g. constructor. Qed.

Lemma traces_lift {A} (r : result A) : traces P (Run.lift r : M A).
Proof. intros g. constructor. Qed.

Lemma traces_emit (e : event) : P e -> traces P (Run.emit e : M unit).
Proof. intros He g. repeat constructor. assumption. Qed.

Lemma traces_get_model : traces P (@Run.get_model Obj).
Proof. intros g. constructor. Qed.

Lemma traces_get_vectorizer : traces P (@Run.get_vectorizer Obj).
Proof. intros g. constructor. Qed.

Lemma traces_get_df : traces P (@Run.get_df Obj).
Proof. intros g. constructor. Qed.

Lemma traces_set_models (m v : option Obj) :
  traces P (Run.set_models m v).
Proof. intros g. constructor. Qed.

Lemma traces_set_df (df : option table) :
  traces P (@Run.set_df Obj df).
Proof. intros g. constructor. Qed.

Lemma traces_bind {A B} (m : M A) (f : A -> M B) :
  traces P m -> (forall a, traces P (f a)) -> traces P (Run.bind m f).
Proof.
  intros Hm Hf g. unfold Run.bind, trace_of.
  specialize (Hm g). unfold trace_of in Hm.
  destruct (m g) as [[g1 t1] [a | e]]; simpl in *; [|assumption].
  specialize (Hf a g1). unfold trace_of in Hf.
  destruct (f a g1) as [[g2 t2] r2]; simpl in *.
  apply Forall_app. split; assumption.
Qed.

Lemma traces_try_except {A} (body : M A) (catches : exn -> bool)
    (handler : exn -> M A) :
  traces P body -> (forall e, traces P (handler e)) ->
  traces P (Run.try_except body catches handler).
Proof.
  intros Hm Hh g. unfold Run.try_except, trace_of.
  specialize (Hm g). unfold trace_of in Hm.
  destruct (body g) as [[g1 t1] [a | e]]; simpl in *; [assumption|].
  destruct (catches e); simpl; [|assumption].
  specialize (Hh e g1). unfold trace_of in Hh.
  destruct (handler e g1) as [[g2 t2] r2]; simpl in *.
  apply Forall_app. split; assumption.
Qed.

(** Binding the result of an operation that touches nothing: the rest
    is only run on what the operation returned. *)
Lemma traces_bind_lift {A B} (r : result A) (f : A -> M B) :
  (forall a, r = Ok a -> traces P (f a)) ->
  traces P (Run.bind (Run.lift r) f).
Proof.
  intros Hf g. unfold Run.bind, Run.lift, trace_of.
  destruct r as [a | e]; [|constructor].
  specialize (Hf a eq_refl g). unfold trace_of in Hf.
  destruct (f a g) as [[g2 t2] r2]; simpl in *. assumption.
Qed.

Lemma traces_weaken {A} (Q : event -> Prop) (m : M A) :
  (forall e, P e -> Q e) -> traces P m -> traces Q m.
Proof. intros HPQ Hm g. eapply Forall_impl; [exact HPQ | apply Hm]. Qed.

Lemma traces_for_each {A} (xs : list A) (body : A -> M unit) :
  (forall x, traces P (body x)) -> traces P (Run.for_each xs body).
Proof.
  intros Hb. induction xs as [|x xs IH]; simpl.
  - apply traces_ret.
  - apply traces_bind; [apply Hb | intros _; exact IH].
Qed.

End Facts.

Section Keeps.

Context {Obj : Type}.
Local Abbreviation M := (@Run.M Obj).

Lemma keeps_bind {A B} (m : M A) (f : A -> M B) :
  keeps m -> (forall a, keeps (f a)) -> keeps (Run.bind m f).
Proof.
  intros Hm Hf g. unfold Run.bind, globals_of.
  specialize (Hm g). unfold globals_of in Hm.
  destruct (m g) as [[g1 t1] [a | e]]; simpl in *; [|assumption].
  specialize (Hf a g1). unfold globals_of in Hf.
  destruct (f a g1) as [[g2 t2] r2]; simpl in *. congruence.
Qed.

Lemma keeps_try_except {A} (body : M A) (catches : exn -> bool)
    (handler : exn -> M A) :
  keeps body -> (forall e, keeps (handler e)) ->
  keeps (Run.try_except body catches handler).
Proof.
  intros Hm Hh g. unfold Run.try_except, globals_of.
  specialize (Hm g). unfold globals_of in Hm.
  destruct (body g) as [[g1 t1] [a | e]]; simpl in *; [assumption|].
  destruct (catches e); simpl; [|assumption].
  specialize (Hh e g1). unfold globals_of in Hh.
  destruct (handler e g1) as [[g2 t2] r2]; simpl in *. congruence.
Qed.

Lemma keeps_ret {A} (a : A) : keeps (Run.ret a : M A).
Proof. intros g. reflexivity. Qed.

Lemma keeps_lift {A} (r : result A) : keeps (Run.lift r : M A).
Proof. intros g. reflexivity. Qed.

Lemma keeps_emit (e : event) : keeps (Run.emit e : M unit).
Proof. intros g. reflexivity. Qed.

Lemma keeps_get_model : keeps (@Run.get_model Obj).
Proof. intros g. reflexivity. Qed.

Lemma keeps_get_vectorizer : keeps (@Run.get_vectorizer Obj).
Proof. intros g. reflexivity. Qed.

Lemma keeps_get_df : keeps (@Run.get_df Obj).
Proof. intros g. reflexivity. Qed.

Lemma keeps_df_of_keeps {A} (m : M A) : keeps m -> keeps_df m.
Proof. intros H g. rewrite H. reflexivity. Qed.

Lemma keeps_df_bind {A B} (m : M A) (f : A -> M B) :
  keeps_df m -> (forall a, keeps_df (f a)) -> keeps_df (Run.bind m f).
Proof.
  intros Hm Hf g. unfold Run.bind, globals_of.
  specialize (Hm g). unfold globals_of in Hm.
  destruct (m g) as [[g1 t1] [a | e]]; simpl in *; [|assumption].
  specialize (Hf a g1). unfold globals_of in Hf.
  destruct (f a g1) as [[g2 t2] r2]; simpl in *. congruence.
Qed.

Lemma keeps_df_try_except {A} (body : M A) (catches : exn -> bool)
    (handler : exn -> M A) :
  keeps_df body -> (forall e, keeps_df (handler e)) ->
  keeps_df (Run.try_except body catches handler).
Proof.
  intros Hm Hh g. unfold Run.try_except, globals_of.
  specialize (Hm g). unfold globals_of in Hm.
  destruct (body g) as [[g1 t1] [a | e]]; simpl in *; [assumption|].
  destruct (catches e); simpl; [|assumption].
  specialize (Hh e g1). unfold globals_of in Hh.
  destruct (handler e g1) as [[g2 t2] r2]; simpl in *. congruence.
Qed.

(** A computation that keeps the globals gives the same events and the
    same result when it is run again after itself. *)
Lemma keeps_rerun {A} (m : M A) (g : globals Obj) :
  keeps m -> m (globals_of (m g)) = m g.
Proof. intros H. rewrite H. reflexivity. Qed.

Lemma df_only_keeps {A} (m : M A) : df_only m -> keeps m.
Proof.
  intros H [mo ve df]. destruct (H df) as (t & r & E).
  rewrite E. reflexivity.
Qed.

Lemma df_only_ret {A} (a : A) : df_only (Run.ret a : M A).
Proof. intros df. exists [], (Ok a). reflexivity. Qed.

Lemma df_only_lift {A} (r : result A) : df_only (Run.lift r : M A).
Proof. intros df. exists [], r. reflexivity. Qed.

Lemma df_only_emit (e : event) : df_only (Run.emit e : M unit).
Proof. intros df. exists [e], (Ok tt). reflexivity. Qed.

Lemma df_only_get_df : df_only (@Run.get_df Obj).
Proof. intros df. exists [], (Ok df). reflexivity. Qed.

Lemma df_only_bind {A B} (m : M A) (f : A -> M B) :
  df_only m -> (forall a, df_only (f a)) -> df_only (Run.bind m f).
Proof.
  intros Hm Hf df. destruct (Hm df) as (t1 & r1 & E1).
  destruct r1 as [a | e].
  - destruct (Hf a df) as (t2 & r2 & E2).
    exists (t1 ++ t2), r2. intros mo ve.
    unfold Run.bind. rewrite E1, E2. reflexivity.
  - exists t1, (Err e). intros mo ve.
    unfold Run.bind. rewrite E1. reflexivity.
Qed.

Lemma df_only_try_except {A} (body : M A) (catches : exn -> bool)
    (handler : exn -> M A) :
  df_only body -> (forall e, df_only (handler e)) ->
  df_only (Run.try_except body catches handler).
Proof.
  intros Hm Hh df. destruct (Hm df) as (t1 & r1 & E1).
  destruct r1 as [a | e].
  - exists t1, (Ok a). intros mo ve.
    unfold Run.try_except. rewrite E1. reflexivity.
  - destruct (catches e) eqn:Hc.
    + destruct (Hh e df) as (t2 & r2 & E2).
      exists (t1 ++ t2), r2. intros mo ve.
      unfold Run.try_except. rewrite E1, Hc, E2. reflexivity.
    + exists t1, (Err e). intros mo ve.
      unfold Run.try_except. rewrite E1, Hc. reflexivity.
Qed.

Lemma df_only_for_each {A} (xs : list A) (body : A -> M unit) :
  (forall x, df_only (body x)) -> df_only (Run.for_each xs body).
Proof.
  intros Hb. induction xs as [|x xs IH]; simpl.
  - apply df_only_ret.
  - apply df_only_bind; [apply Hb | intros _; exact IH].
Qed.

End Keeps.

End RunFacts.

(** ** The parts of the script *)

Module AppFacts.

Import Props RunFacts App.

(** Walks through a computation with the composition lemmas of one of
    the invariants. *)
Ltac walk_traces :=
  repeat first
    [ apply traces_ret | apply traces_lift
    | apply traces_get_df | apply traces_get_model
    | apply traces_get_vectorizer
    | apply traces_set_models | apply traces_set_df
    | apply traces_emit
    | apply traces_bind; [| intros ?]
    | apply traces_try_except; [| intros ?]
    | apply traces_for_each; intros ?
    | match goal with
      | |- traces _ (match ?x with _ => _ end) => destruct x
      end ].

Ltac walk_df_only :=
  repeat first
    [ apply df_only_ret | apply df_only_lift
    | apply df_only_get_df | apply df_only_emit
    | apply df_only_bind; [| intros ?]
    | apply df_only_try_except; [| intros ?]
    | apply df_only_for_each; intros ?
    | match goal with
      | |- df_only (match ?x with _ => _ end) => destruct x
      end ].

Ltac walk_keeps :=
  repeat first
    [ apply keeps_ret | apply keeps_lift | apply keeps_emit
    | apply keeps_get_df | apply keeps_get_model
    | apply keeps_get_vectorizer
    | apply keeps_bind; [| intros ?]
    | apply keeps_try_except; [| intros ?]
    | match goal with
      | |- keeps (match ?x with _ => _ end) => destruct x
      end ].

Section Parts.

Context {Obj FV : Type} (L : Lib Obj FV).

(** *** The loaders *)

Lemma load_models_outside : traces outside_prediction (load_models L).
Proof. unfold load_models. walk_traces; repeat split. Qed.

Lemma load_data_outside : traces outside_prediction (load_data L).
Proof. unfold load_data. walk_traces; repeat split. Qed.

(** *** The views that do not predict *)

Lemma dashboard_outside : traces outside_prediction (@dashboard Obj).
Proof. unfold dashboard. walk_traces; repeat split. Qed.

Lemma dataset_outside u : traces outside_prediction (@dataset Obj u).
Proof. unfold dataset. walk_traces; repeat split. Qed.

Lemma visualisasi_outside : traces outside_prediction (visualisasi L).
Proof.
  unfold visualisasi, word_clouds, sentiment_metric.
  walk_traces; repeat split.
Qed.

Lemma dashboard_df_only : df_only (@dashboard Obj).
Proof. unfold dashboard. walk_df_only. Qed.

Lemma dataset_df_only u : df_only (@dataset Obj u).
Proof. unfold dataset. walk_df_only. Qed.

Lemma visualisasi_df_only : df_only (visualisasi L).
Proof.
  unfold visualisasi, word_clouds, sentiment_metric. walk_df_only.
Qed.

(** *** The calls of the artifacts *)

Variable P : event -> Prop.

Lemma traces_call_transform docs :
  P (CallTransform docs) -> traces P (call_transform L docs).
Proof.
  intros H g. unfold call_transform, trace_of.
  destruct (g_vectorizer g) as [v|]; [|constructor].
  destruct (transform L v docs). simpl. repeat constructor. assumption.
Qed.

Lemma traces_call_predict x :
  P CallPredict -> traces P (call_predict L x).
Proof.
  intros H g. unfold call_predict, trace_of.
  destruct (g_model g) as [m|]; [|constructor].
  destruct (predict L m x). simpl. repeat constructor. assumption.
Qed.

Lemma traces_call_decision_function x :
  P CallDecisionFunction -> traces P (call_decision_function L x).
Proof.
  intros H g. unfold call_decision_function, trace_of.
  destruct (g_model g) as [m|]; [|constructor].
  destruct (decision_function L m x). simpl.
  repeat constructor. assumption.
Qed.

End Parts.

End AppFacts.

(** ** Manual prediction *)

Module Prediction.

Import PyStr PyStrFacts Builtins Props RunFacts App AppFacts.

Section Prediction.

Context {Obj FV : Type} (L : Lib Obj FV).

Lemma truthy_strip (s : string) :
  strip s <> EmptyString -> truthy (strip s) = true.
Proof.
  intros H. unfold truthy. destruct (strip s); [congruence | reflexivity].
Qed.

(** C1.  With both artifacts loaded, when the button is clicked on a
    text that is not empty once stripped, the view calls [transform] on
    the one-element list holding the text, then [predict] and
    [decision_function] on the matrix [transform] returned, and shows a
    prediction box whose label is the first element of what [predict]
    returned (put in upper case by [str.upper], styled by [styling]) and
    whose confidence is the absolute value of the first element of what
    [decision_function] returned. *)
Theorem classify_label_and_confidence
    (u : ui) (m v : Obj) (df : option table)
    (fv : FV) (v' m' m'' : Obj)
    (l : string) (labels : list pyobj) (c : Q) (margins : list pyobj) :
  ui_button u = true ->
  strip (ui_user_input u) <> EmptyString ->
  transform L v [ui_user_input u] = (Ok fv, v') ->
  predict L m fv = (Ok (PySeq (PyStr l :: labels)), m') ->
  decision_function L m' fv = (Ok (PySeq (PyNum c :: margins)), m'') ->
  prediksi_manual L u (Globals (Some m) (Some v) df) =
    (Globals (Some m'') (Some v') df,
     prediction_form ++
     [CallTransform [ui_user_input u]; CallPredict; CallDecisionFunction;
      Html (ResultBox (snd (styling l)) (fst (styling l)) (str_upper L l)
              (Qabs c))],
     Ok tt).
Proof.
  intros Hb Hs Ht Hp Hd.
  unfold prediction_form, prediction_heading.
  cbv [prediksi_manual Run.bind Run.emit Run.get_model
       Run.get_vectorizer g_model g_vectorizer g_df app].
  rewrite Hb, (@truthy_strip _ Hs).
  cbv [Run.try_except predict_block Run.bind Run.emit Run.lift
       call_transform call_predict call_decision_function
       g_model g_vectorizer g_df].
  rewrite Ht. cbv beta iota. rewrite Hp. cbv beta iota.
  cbv [getitem0]. rewrite Hd.
  cbv [str_receiver format_abs].
  destruct (styling l) as [emoji color]. reflexivity.
Qed.

(** C2.  The emoji and the colour follow the label: any casing of
    [positif] gives the positive pair, any casing of [negatif] the
    negative pair, and every other label the neutral pair. *)
Theorem label_presentation (l : string) :
  (any_casing "positif" l -> styling l = positive_style) /\
  (any_casing "negatif" l -> styling l = negative_style) /\
  (~ any_casing "positif" l -> ~ any_casing "negatif" l ->
   styling l = neutral_style).
Proof.
  unfold styling.
  pose proof (@lower_eq_any_casing "positif" eq_refl l) as Hpos.
  pose proof (@lower_eq_any_casing "negatif" eq_refl l) as Hneg.
  repeat split.
  - intros H. apply Hpos in H. rewrite H. reflexivity.
  - intros H. apply Hneg in H. rewrite H. reflexivity.
  - intros Hp Hn.
    destruct (String.eqb_spec (lower l) "positif") as [E|_];
      [apply Hpos in E; contradiction|].
    destruct (String.eqb_spec (lower l) "negatif") as [E|_];
      [apply Hneg in E; contradiction|].
    reflexivity.
Qed.

(** The body of the [try] only shows a confidence that is an absolute
    value. *)
Lemma predict_block_nonneg (text : string) :
  traces nonneg_confidence (predict_block L text).
Proof.
  unfold predict_block.
  apply traces_bind; [apply traces_call_transform; exact I | intros x].
  apply traces_bind; [apply traces_call_predict; exact I | intros labels].
  apply traces_bind; [apply traces_lift | intros hasil].
  apply traces_bind;
    [apply traces_call_decision_function; exact I | intros margins].
  apply traces_bind; [apply traces_lift | intros confidence].
  apply traces_bind; [apply traces_lift | intros label].
  destruct (styling label) as [emoji color].
  apply traces_bind_lift. intros shown Hshown.
  apply traces_emit. simpl.
  destruct confidence; simpl in Hshown; try discriminate.
  injection Hshown as <-. apply Qabs_nonneg.
Qed.

Lemma prediksi_manual_nonneg (u : ui) :
  traces nonneg_confidence (prediksi_manual L u).
Proof.
  unfold prediksi_manual.
  apply traces_bind; [apply traces_emit; exact I | intros _].
  apply traces_bind; [apply traces_get_model | intros model].
  apply traces_bind; [apply traces_get_vectorizer | intros vectorizer].
  destruct model, vectorizer; try apply traces_ret.
  repeat (apply traces_bind; [apply traces_emit; exact I | intros _]).
  destruct (ui_button u); [|apply traces_ret].
  destruct (truthy (strip (ui_user_input u)));
    [|apply traces_emit; exact I].
  apply traces_try_except; [apply predict_block_nonneg | intros e].
  apply traces_emit. exact I.
Qed.

Lemma outside_nonneg (e : event) :
  outside_prediction e -> nonneg_confidence e.
Proof.
  intros [_ H]. destruct e; try exact I.
  destruct block; simpl in *; tauto.
Qed.

Lemma script_nonneg (u : ui) : traces nonneg_confidence (script L u).
Proof.
  unfold script, load_globals, page, view.
  repeat (apply traces_bind; [apply traces_emit; exact I | intros _]).
  apply traces_bind.
  - apply traces_bind;
      [eapply traces_weaken; [exact outside_nonneg|];
       apply load_models_outside | intros loaded].
    apply traces_bind; [apply traces_set_models | intros _].
    apply traces_bind;
      [eapply traces_weaken; [exact outside_nonneg|];
       apply load_data_outside | intros df].
    apply traces_set_df.
  - intros _.
    repeat (apply traces_bind; [apply traces_emit; exact I | intros _]).
    apply traces_bind.
    + destruct (ui_option u).
      * eapply traces_weaken; [exact outside_nonneg|].
        apply dashboard_outside.
      * eapply traces_weaken; [exact outside_nonneg|].
        apply dataset_outside.
      * apply prediksi_manual_nonneg.
      * eapply traces_weaken; [exact outside_nonneg|].
        apply visualisasi_outside.
    + intros _.
      apply traces_bind; [apply traces_emit; exact I | intros _].
      apply traces_emit. exact I.
Qed.

(** C3.  In every run of the script, whatever the libraries return,
    the confidence of a prediction box that is shown is at least
    zero. *)
Theorem confidence_nonnegative
    (u : ui) (color emoji label : string) (confidence : Q) :
  In (Html (ResultBox color emoji label confidence))
     (trace_of (run L u)) ->
  (0 <= confidence)%Q.
Proof.
  intros H. pose proof (script_nonneg u (Globals None None None)) as Hall.
  rewrite Forall_forall in Hall. exact (Hall _ H).
Qed.

(** C4.  With both artifacts loaded, clicking the button on a text
    made of whitespace only (the empty text included) shows the
    empty-input warning after the form and nothing else: no artifact
    is called, nothing is predicted, no error is reported, and the
    globals stay as they were. *)
Theorem empty_input_short_circuit
    (u : ui) (m v : Obj) (df : option table) :
  ui_button u = true ->
  all_space (ui_user_input u) = true ->
  prediksi_manual L u (Globals (Some m) (Some v) df) =
    (Globals (Some m) (Some v) df,
     prediction_form ++ [empty_input_prompt],
     Ok tt)
  /\ forallb (fun e => negb (is_call e))
       (trace_of (prediksi_manual L u (Globals (Some m) (Some v) df)))
     = true.
Proof.
  intros Hb Hs.
  assert (E : prediksi_manual L u (Globals (Some m) (Some v) df) =
              (Globals (Some m) (Some v) df,
               prediction_form ++ [empty_input_prompt], Ok tt)).
  { unfold prediksi_manual, Run.bind, Run.emit, Run.get_model,
      Run.get_vectorizer.
    simpl. rewrite Hb, strip_empty_iff, Hs. reflexivity. }
  split; [exact E|]. rewrite E. reflexivity.
Qed.

End Prediction.

End Prediction.

(** ** Loading the artifacts and the dataset *)

Module Loading.

Import PyStr Builtins Props RunFacts App AppFacts.

Lemma str_items_map (tokens : list string) :
  str_items (map PyStr tokens) = Some tokens.
Proof.
  induction tokens as [|t tokens IH]; simpl; [reflexivity|].
  rewrite IH. reflexivity.
Qed.

Lemma join_space_tokens (tokens : list string) :
  join_space (PySeq (map PyStr tokens)) = Ok (join " " tokens).
Proof. simpl. rewrite str_items_map. reflexivity. Qed.

(** [' '.join] of a list of strings is the strings separated by single
    spaces. *)
Lemma join_space_separated (tokens : list string) :
  join " " tokens = space_separated tokens.
Proof.
  induction tokens as [|t rest IH]; [reflexivity|].
  destruct rest as [|u rest].
  { simpl. induction t as [|c t IHt]; [reflexivity|].
    simpl. rewrite <- IHt. reflexivity. }
  change (join " " (t :: u :: rest))
    with (t ++ String " " (join " " (u :: rest)))%string.
  rewrite IH. reflexivity.
Qed.

Lemma map_PyStr_injective (a b : list string) :
  map PyStr a = map PyStr b -> a = b.
Proof.
  revert b. induction a as [|x a IH]; intros [|y b] H;
    try discriminate; [reflexivity|].
  simpl in H. injection H as -> H. f_equal. apply IH. assumption.
Qed.

Lemma join_space_error (v : pyobj) (e : exn) :
  join_space v = Err e -> is_file_not_found e = false.
Proof.
  destruct v as [s | q | items |]; simpl; try discriminate;
    try (intros H; injection H as <-; reflexivity).
  destruct (str_items items); [discriminate|].
  intros H. injection H as <-. reflexivity.
Qed.

Lemma getitem_setitem (name : string) (col col' : list cell) (df : table) :
  Frame.getitem name df = Ok col ->
  Frame.getitem name (Frame.setitem name col' df) = Ok col'.
Proof.
  induction df as [|[k old] df IH]; simpl; [discriminate|].
  destruct (String.eqb k name) eqn:E; simpl; rewrite E; auto.
Qed.

Lemma getitem_has_column (name : string) (df : table) (col : list cell) :
  Frame.getitem name df = Ok col -> Frame.has_column name df = true.
Proof.
  unfold Frame.has_column, Frame.columns.
  induction df as [|[k old] df IH]; simpl; [discriminate|].
  rewrite (String.eqb_sym name k).
  destruct (String.eqb k name); simpl; auto.
Qed.

Lemma getitem_setitem_other (name other : string) (col' : list cell)
    (df : table) :
  other <> name ->
  Frame.getitem other (Frame.setitem name col' df) =
  match Frame.getitem other df with
  | Ok col => Ok col
  | Err e => if Frame.has_column name df then Err e
             else Frame.getitem other [(name, col')]
  end.
Proof.
  intros Hne. unfold Frame.has_column, Frame.columns.
  induction df as [|[k old] df IH]; simpl; [reflexivity|].
  destruct (String.eqb_spec k name) as [->|Hk]; simpl.
  - destruct (String.eqb_spec name other) as [->|_]; [congruence|].
    rewrite String.eqb_refl. simpl.
    destruct (Frame.getitem other df); reflexivity.
  - destruct (String.eqb_spec k other) as [->|_]; [reflexivity|].
    rewrite IH.
    destruct (String.eqb_spec name k) as [->|_]; [congruence|].
    reflexivity.
Qed.

Section Loading.

Context {Obj FV : Type} (L : Lib Obj FV).

(** *** [load_models] *)

(** The three ways [load_models] can end: both artifacts, the notice
    and two [None], or an exception that is not caught. *)
Lemma load_models_cases (g : globals Obj) :
  (exists m v,
      joblib_load L "model/svm_model.pkl" = Ok m /\
      joblib_load L "model/vectorizer.pkl" = Ok v /\
      load_models L g = (g, [], Ok (Some m, Some v))) \/
  (artifact_missing L /\
   load_models L g = (g, [models_not_found], Ok (None, None))) \/
  (exists e, is_file_not_found e = false /\
             load_models L g = (g, [], Err e)).
Proof.
  unfold load_models, artifact_missing, Run.try_except, Run.bind,
    Run.lift, Run.ret, Run.emit.
  destruct (joblib_load L "model/svm_model.pkl") as [m | e1] eqn:E1.
  - destruct (joblib_load L "model/vectorizer.pkl") as [v | e2] eqn:E2.
    + left. exists m, v. auto.
    + right. destruct (is_file_not_found e2) eqn:F.
      * left. split; [right; exists m, e2; auto | reflexivity].
      * right. exists e2. auto.
  - right. destruct (is_file_not_found e1) eqn:F.
    + left. split; [left; exists e1; auto | reflexivity].
    + right. exists e1. auto.
Qed.


(** *** [load_data] *)

Lemma load_data_read_error (g : globals Obj) (e : exn) :
  read_csv L "data/hasil_preprocessing_mobile_jkn.csv" = Err e ->
  load_data L g =
    if is_file_not_found e then (g, [dataset_not_found], Ok None)
    else (g, [], Err e).
Proof.
  intros E.
  unfold load_data, Run.try_except, Run.bind, Run.lift, Run.ret,
    Run.emit.
  rewrite E. destruct (is_file_not_found e); reflexivity.
Qed.

Lemma load_data_read_ok (g : globals Obj) (df : table) (col : list cell) :
  read_csv L "data/hasil_preprocessing_mobile_jkn.csv" = Ok df ->
  Frame.getitem "stemming" df = Ok col ->
  load_data L g =
    match Run.apply (stemming_lambda L) col with
    | Ok col' => (g, [], Ok (Some (Frame.setitem "stemming" col' df)))
    | Err e =>
        if is_file_not_found e then (g, [dataset_not_found], Ok None)
        else (g, [], Err e)
    end.
Proof.
  intros E Ec.
  unfold load_data, Run.try_except, Run.bind, Run.lift, Run.ret,
    Run.emit.
  rewrite E, Ec.
  destruct (Run.apply (stemming_lambda L) col) as [col' | e];
    [reflexivity|].
  destruct (is_file_not_found e); reflexivity.
Qed.

Lemma load_data_df_only : df_only (load_data L).
Proof. unfold load_data. walk_df_only. Qed.

(** When some string cell does not evaluate, [apply] raises. *)
Lemma apply_raises (col : list cell) (x : string) (e : exn) :
  (forall y e', literal_eval L y = Err e' ->
                is_file_not_found e' = false) ->
  In (CStr x) col ->
  literal_eval L x = Err e ->
  exists e', Run.apply (stemming_lambda L) col = Err e' /\
             is_file_not_found e' = false.
Proof.
  intros Hlit Hin Hx. induction col as [|c col IH]; [contradiction|].
  simpl. destruct (stemming_lambda L c) as [y | e0] eqn:Ec.
  - destruct Hin as [-> | Hin].
    + simpl in Ec. rewrite Hx in Ec. discriminate.
    + destruct (IH Hin) as (e' & -> & F). exists e'. auto.
  - exists e0. split; [reflexivity|].
    destruct c as [s | q |]; simpl in Ec; try discriminate.
    destruct (literal_eval L s) as [toks | e1] eqn:El.
    + destruct (join_space toks) as [j | e2] eqn:Ej; [discriminate|].
      injection Ec as <-. eapply join_space_error; eassumption.
    + injection Ec as <-. eapply Hlit; eassumption.
Qed.

(** When every string cell is a serialized sequence of tokens, [apply]
    returns the column with each of them joined. *)
Lemma apply_deserializes (col : list cell) :
  (forall x, In (CStr x) col ->
             exists tokens,
               literal_eval L x = Ok (PySeq (map PyStr tokens))) ->
  exists col',
    Run.apply (stemming_lambda L) col = Ok col' /\
    Forall2 (deserialized L) col col'.
Proof.
  induction col as [|c col IH]; intros H.
  - exists []. split; [reflexivity | constructor].
  - destruct IH as (col' & E & F).
    { intros x Hx. apply H. right. assumption. }
    destruct c as [s | q |].
    + destruct (H s (or_introl eq_refl)) as (tokens & Es).
      exists (CStr (space_separated tokens) :: col'). split.
      * simpl. rewrite Es, join_space_tokens, join_space_separated, E.
        reflexivity.
      * constructor; [|assumption]. simpl. exists tokens. auto.
    + exists (CNum q :: col'). split.
      * simpl. rewrite E. reflexivity.
      * constructor; [reflexivity | assumption].
    + exists (CNaN :: col'). split.
      * simpl. rewrite E. reflexivity.
      * constructor; [reflexivity | assumption].
Qed.

(** A column has at most one deserialized column. *)
Lemma deserialized_unique (col a b : list cell) :
  Forall2 (deserialized L) col a ->
  Forall2 (deserialized L) col b ->
  a = b.
Proof.
  intros Ha. revert b.
  induction Ha as [|c x col a Hx Ha IH]; intros b Hb;
    inversion Hb as [|c' y col' b' Hy Hb' E1 E2]; subst; [reflexivity|].
  f_equal; [|apply IH; assumption].
  destruct c as [s | q |]; simpl in Hx, Hy; try congruence.
  destruct Hx as (t1 & E1 & ->). destruct Hy as (t2 & E2 & ->).
  rewrite E1 in E2. injection E2 as E2.
  apply map_PyStr_injective in E2. subst. reflexivity.
Qed.

End Loading.

End Loading.

(** ** The page as a whole *)

Module Page.

Import PyStr Builtins Props RunFacts App AppFacts Loading.

Section Page.

Context {Obj FV : Type} (L : Lib Obj FV).

(** The page is the sidebar, the view and, when the view returns, the
    footer. *)
Lemma page_eq (u : ui) (g : globals Obj) :
  page L u g =
    match view L u g with
    | (g1, t1, Ok _) =>
        (g1,
         [Html SidebarBanner; SidebarRadio] ++ t1 ++
         [Markdown "---"; Html Footer],
         Ok tt)
    | (g1, t1, Err e) =>
        (g1, [Html SidebarBanner; SidebarRadio] ++ t1, Err e)
    end.
Proof.
  unfold page, Run.bind, Run.emit.
  destruct (view L u g) as [[g1 t1] [[] | e]]; reflexivity.
Qed.

(** The script is the header, the two loads and the page. *)
Lemma run_eq (u : ui) :
  run L u =
    match load_models L (Globals None None None) with
    | (_, t0, Err e) =>
        (Globals None None None,
         [SetPageConfig; Html StyleSheet; Html MainHeader] ++ t0, Err e)
    | (_, t0, Ok loaded) =>
        let g0 := Globals (fst loaded) (snd loaded) None in
        match load_data L g0 with
        | (_, t1, Err e) =>
            (g0,
             [SetPageConfig; Html StyleSheet; Html MainHeader] ++ t0 ++ t1,
             Err e)
        | (_, t1, Ok df) =>
            let '(g2, t2, r2) :=
              page L u (Globals (fst loaded) (snd loaded) df) in
            (g2,
             [SetPageConfig; Html StyleSheet; Html MainHeader] ++
             t0 ++ t1 ++ t2,
             r2)
        end
    end.
Proof.
  unfold run, script, load_globals.
  pose proof (load_models_cases L (Globals None None None)) as Hm.
  cbv [Run.bind Run.emit Run.set_models Run.set_df].
  destruct Hm as [(m & v & _ & _ & ->) | [[_ ->] | (e & _ & ->)]];
    cbv [fst snd g_df g_model g_vectorizer].
  - destruct (load_data_df_only L None) as (t & r & E).
    rewrite E. destruct r as [df | e]; [|reflexivity].
    destruct (page L u (Globals (Some m) (Some v) df)) as [[g2 t2] r2].
    cbn [app]. rewrite app_nil_r. reflexivity.
  - destruct (load_data_df_only L None) as (t & r & E).
    rewrite E. destruct r as [df | e]; [|reflexivity].
    destruct (page L u (Globals None None df)) as [[g2 t2] r2].
    cbn [app]. rewrite app_nil_r. reflexivity.
  - reflexivity.
Qed.

(** *** Without artifacts *)

Lemma prediksi_manual_disabled (u : ui) (g : globals Obj) :
  g_model g = None \/ g_vectorizer g = None ->
  prediksi_manual L u g = (g, prediction_heading, Ok tt).
Proof.
  intros H. unfold prediksi_manual, Run.bind, Run.emit, Run.get_model,
    Run.get_vectorizer, Run.ret.
  destruct g as [[m|] [v|] df]; simpl in *;
    destruct H; try discriminate; reflexivity.
Qed.

Lemma outside_not_prediction (e : event) :
  outside_prediction e -> prediction_event e = false.
Proof. intros [H _]. exact H. Qed.

Lemma view_without_artifacts (u : ui) (g : globals Obj) :
  g_model g = None \/ g_vectorizer g = None ->
  Forall (fun e => prediction_event e = false) (trace_of (view L u g)).
Proof.
  intros H. unfold view. destruct (ui_option u).
  - eapply Forall_impl; [exact outside_not_prediction|].
    apply dashboard_outside.
  - eapply Forall_impl; [exact outside_not_prediction|].
    apply dataset_outside.
  - rewrite prediksi_manual_disabled by assumption.
    repeat constructor.
  - eapply Forall_impl; [exact outside_not_prediction|].
    apply visualisasi_outside.
Qed.

Lemma page_without_artifacts (u : ui) (g : globals Obj) :
  g_model g = None \/ g_vectorizer g = None ->
  Forall (fun e => prediction_event e = false) (trace_of (page L u g)).
Proof.
  intros H. rewrite page_eq.
  pose proof (view_without_artifacts u g H) as Hv. unfold trace_of in *.
  destruct (view L u g) as [[g1 t1] [[] | e]]; simpl in *.
  - repeat constructor. apply Forall_app. split; [assumption|].
    repeat constructor.
  - repeat constructor. assumption.
Qed.



(** *** Without the dataset *)

Lemma dashboard_without_df (m v : option Obj) :
  dashboard (Globals m v None) =
    (Globals m v None,
     [Markdown "### 📊 Distribusi Sentimen Cepat"],
     Err (Raise AttributeError
            "'NoneType' object has no attribute 'columns'")).
Proof. reflexivity. Qed.

Lemma dataset_without_df (u : ui) (m v : option Obj) :
  dataset u (Globals m v None) =
    (Globals m v None, [Markdown "## 📄 Dataset Mobile JKN"], Ok tt).
Proof. reflexivity. Qed.

Lemma visualisasi_without_df (m v : option Obj) :
  visualisasi L (Globals m v None) =
    (Globals m v None, [Markdown "## 📈 Visualisasi Hasil Sentimen"],
     Ok tt).
Proof. reflexivity. Qed.

End Page.

End Page.

(** ** Degradation: what a failed load leaves of the page *)

Module Degradation.

Import PyStr Builtins Props RunFacts App AppFacts Loading Page.

Section Degradation.

Context {Obj FV : Type} (L : Lib Obj FV).


(** C6, the failing run.  When the loading of the artifacts returns
    and the dataset file is not found, the Dashboard view raises
    [AttributeError] on [df.columns] right after its heading: the run
    ends there, uncaught, and the footer is not drawn. *)
Theorem dashboard_crashes_without_dataset
    (text : string) (button : bool) (rows : nat)
    (loaded : option Obj * option Obj) (e : exn) :
  result_of (load_models L (Globals None None None)) = Ok loaded ->
  read_csv L "data/hasil_preprocessing_mobile_jkn.csv" = Err e ->
  is_file_not_found e = true ->
  exists before,
    run L (UI Dashboard text button rows) =
      (Globals (fst loaded) (snd loaded) None,
       before ++
       [dataset_not_found; Html SidebarBanner; SidebarRadio;
        Markdown "### 📊 Distribusi Sentimen Cepat"],
       Err (Raise AttributeError
              "'NoneType' object has no attribute 'columns'")).
Proof.
  intros Hm Hr Hf. rewrite run_eq. unfold result_of in Hm.
  destruct (load_models L (Globals None None None)) as [[g0 t0] r0].
  simpl in Hm. subst r0. cbv zeta.
  rewrite (load_data_read_error _ _ Hr), Hf.
  rewrite page_eq. unfold view. cbv [ui_option].
  rewrite dashboard_without_df.
  exists ([SetPageConfig; Html StyleSheet; Html MainHeader] ++ t0).
  cbv zeta. rewrite <- !app_assoc. reflexivity.
Qed.

(** C7, amended.  [load_data] catches a failure to read the file only
    when it is [FileNotFoundError]: it then shows the notice and
    returns [None].  Any other exception raised by the reading
    propagates, and so does the exception raised when a string cell of
    [stemming] does not evaluate; nothing is reported then. *)
Theorem load_data_catches_missing_file_only (g : globals Obj) :
  (forall e,
      read_csv L "data/hasil_preprocessing_mobile_jkn.csv" = Err e ->
      is_file_not_found e = true ->
      load_data L g = (g, [dataset_not_found], Ok None))
  /\ (forall e,
        read_csv L "data/hasil_preprocessing_mobile_jkn.csv" = Err e ->
        is_file_not_found e = false ->
        load_data L g = (g, [], Err e))
  /\ (forall df col x e,
        (forall y e', literal_eval L y = Err e' ->
                      is_file_not_found e' = false) ->
        read_csv L "data/hasil_preprocessing_mobile_jkn.csv" = Ok df ->
        Frame.getitem "stemming" df = Ok col ->
        In (CStr x) col ->
        literal_eval L x = Err e ->
        exists e', load_data L g = (g, [], Err e')).
Proof.
  split; [|split].
  - intros e Hr Hf. rewrite (load_data_read_error _ _ Hr), Hf.
    reflexivity.
  - intros e Hr Hf. rewrite (load_data_read_error _ _ Hr), Hf.
    reflexivity.
  - intros df col x e Hlit Hr Hc Hin Hx.
    destruct (apply_raises L col x Hlit Hin Hx) as (e' & Ea & Fa).
    exists e'. rewrite (load_data_read_ok _ _ Hr Hc), Ea, Fa.
    reflexivity.
Qed.

(** C8.  When the file is read, has a [stemming] column, and every
    string cell of that column is a serialized sequence of tokens,
    [load_data] returns the frame with that column replaced: each
    string cell by its tokens separated by single spaces, every other
    cell by itself; the other columns are as read.  The new column is
    the only one that is related to the old one in this way, and the
    frame returned is the frame read with the column assigned. *)
Theorem stemming_cells_deserialized
    (g : globals Obj) (df : table) (col : list cell) :
  read_csv L "data/hasil_preprocessing_mobile_jkn.csv" = Ok df ->
  Frame.getitem "stemming" df = Ok col ->
  (forall x, In (CStr x) col ->
             exists tokens,
               literal_eval L x = Ok (PySeq (map PyStr tokens))) ->
  exists df' col',
    load_data L g = (g, [], Ok (Some df')) /\
    Frame.getitem "stemming" df' = Ok col' /\
    Forall2 (deserialized L) col col' /\
    (forall other, other <> "stemming" ->
                   Frame.getitem other df' = Frame.getitem other df) /\
    df' = Frame.setitem "stemming" col' df /\
    (forall col'', Forall2 (deserialized L) col col'' -> col'' = col').
Proof.
  intros Hr Hc Hcells.
  destruct (apply_deserializes L col Hcells) as (col' & Ea & F).
  exists (Frame.setitem "stemming" col' df), col'.
  split; [|split; [|split; [|split; [|split]]]].
  6: { intros col'' F'. exact (deserialized_unique F' F). }
  5: reflexivity.
  - rewrite (load_data_read_ok _ _ Hr Hc), Ea. reflexivity.
  - eapply getitem_setitem. eassumption.
  - assumption.
  - intros other Hne. rewrite getitem_setitem_other by assumption.
    destruct (Frame.getitem other df) as [c | e]; [reflexivity|].
    rewrite (getitem_has_column _ _ Hc). reflexivity.
Qed.

(** C10.  When [model] or [vectorizer] is [None] the Manual Prediction
    view shows its heading and nothing else: no text area, no button,
    no call.  And in a run of the script, a text area, a button or a
    call of an artifact's method only occurs when both files were
    loaded. *)
Theorem no_prediction_on_unloaded_artifact (u : ui) :
  (forall g,
      g_model g = None \/ g_vectorizer g = None ->
      prediksi_manual L u g = (g, prediction_heading, Ok tt))
  /\ (forall e,
        In e (trace_of (run L u)) ->
        prediction_event e = true ->
        exists m v,
          joblib_load L "model/svm_model.pkl" = Ok m /\
          joblib_load L "model/vectorizer.pkl" = Ok v).
Proof.
  split; [intros g; apply prediksi_manual_disabled|].
  intros e Hin He.
  destruct (load_models_cases L (Globals None None None))
    as [(m & v & Em & Ev & _) | [[_ Hl] | (e0 & _ & Hl)]].
  - exists m, v. auto.
  - exfalso. rewrite run_eq, Hl in Hin. cbv [fst snd] in Hin.
    pose proof (load_data_outside L (Globals None None None)) as Hd.
    unfold trace_of in Hd, Hin.
    destruct (load_data L (Globals None None None)) as [[g1 t1] [df | e1]].
    + pose proof (@page_without_artifacts _ _ L u (Globals None None df)
                    (or_introl eq_refl)) as Hp.
      unfold trace_of in Hp.
      destruct (page L u (Globals None None df)) as [[g2 t2] r2].
      simpl in Hin, Hd, Hp.
      destruct Hin as [<- | [<- | [<- | [<- | Hin]]]]; try discriminate.
      apply in_app_or in Hin as [Hin | Hin].
      * rewrite Forall_forall in Hd.
        apply Hd, outside_not_prediction in Hin. congruence.
      * rewrite Forall_forall in Hp. apply Hp in Hin. congruence.
    + simpl in Hin, Hd.
      destruct Hin as [<- | [<- | [<- | [<- | Hin]]]]; try discriminate.
      rewrite Forall_forall in Hd.
      apply Hd, outside_not_prediction in Hin. congruence.
  - exfalso. rewrite run_eq, Hl in Hin. simpl in Hin.
    destruct Hin as [<- | [<- | [<- | []]]]; discriminate.
Qed.

End Degradation.

End Degradation.

(** ** Running the classification again *)

Module Idempotence.

Import PyStr Builtins Props RunFacts App AppFacts.

Section Frame.

Context {Obj FV : Type} (L : Lib Obj FV).

(** *** The dataset is never written *)

Lemma keeps_df_call_transform (docs : list string) :
  keeps_df (call_transform L docs).
Proof.
  intros [m v df]. unfold call_transform, globals_of. simpl.
  destruct v as [v|]; [|reflexivity].
  destruct (transform L v docs) as [r v']. reflexivity.
Qed.

Lemma keeps_df_call_predict (x : FV) : keeps_df (call_predict L x).
Proof.
  intros [m v df]. unfold call_predict, globals_of. simpl.
  destruct m as [m|]; [|reflexivity].
  destruct (predict L m x) as [r m']. reflexivity.
Qed.

Lemma keeps_df_call_decision_function (x : FV) :
  keeps_df (call_decision_function L x).
Proof.
  intros [m v df]. unfold call_decision_function, globals_of. simpl.
  destruct m as [m|]; [|reflexivity].
  destruct (decision_function L m x) as [r m']. reflexivity.
Qed.

Ltac pure_step :=
  first [ apply keeps_df_of_keeps;
          first [ apply keeps_ret | apply keeps_lift | apply keeps_emit
                | apply keeps_get_model | apply keeps_get_vectorizer
                | apply keeps_get_df ] ].

Lemma keeps_df_predict_block (text : string) :
  keeps_df (predict_block L text).
Proof.
  unfold predict_block.
  apply keeps_df_bind; [apply keeps_df_call_transform | intros x].
  apply keeps_df_bind; [apply keeps_df_call_predict | intros labels].
  apply keeps_df_bind; [pure_step | intros hasil].
  apply keeps_df_bind; [apply keeps_df_call_decision_function | intros ms].
  apply keeps_df_bind; [pure_step | intros confidence].
  apply keeps_df_bind; [pure_step | intros label].
  destruct (styling label) as [emoji color].
  apply keeps_df_bind; [pure_step | intros shown]. pure_step.
Qed.

Lemma keeps_df_prediksi_manual (u : ui) : keeps_df (prediksi_manual L u).
Proof.
  unfold prediksi_manual.
  apply keeps_df_bind; [pure_step | intros _].
  apply keeps_df_bind; [pure_step | intros model].
  apply keeps_df_bind; [pure_step | intros vectorizer].
  destruct model, vectorizer; try pure_step.
  repeat (apply keeps_df_bind; [pure_step | intros _]).
  destruct (ui_button u); [|pure_step].
  destruct (truthy (strip (ui_user_input u))); [|pure_step].
  apply keeps_df_try_except; [apply keeps_df_predict_block | intros e].
  pure_step.
Qed.

Lemma keeps_df_page (u : ui) : keeps_df (page L u).
Proof.
  unfold page, view.
  repeat (apply keeps_df_bind; [pure_step | intros _]).
  apply keeps_df_bind.
  - destruct (ui_option u).
    + apply keeps_df_of_keeps, df_only_keeps, dashboard_df_only.
    + apply keeps_df_of_keeps, df_only_keeps, dataset_df_only.
    + apply keeps_df_prediksi_manual.
    + apply keeps_df_of_keeps, df_only_keeps, visualisasi_df_only.
  - intros _. apply keeps_df_bind; [pure_step | intros _]. pure_step.
Qed.

(** *** Artifacts whose methods are read-only are left as they were *)

Hypothesis Hro : read_only L.

Lemma keeps_call_transform (docs : list string) :
  keeps (call_transform L docs).
Proof.
  intros [m v df]. unfold call_transform, globals_of. simpl.
  destruct v as [v|]; [|reflexivity].
  destruct Hro as [Ht _]. specialize (Ht v docs).
  destruct (transform L v docs) as [r v']. simpl in *. congruence.
Qed.

Lemma keeps_call_predict (x : FV) : keeps (call_predict L x).
Proof.
  intros [m v df]. unfold call_predict, globals_of. simpl.
  destruct m as [m|]; [|reflexivity].
  destruct Hro as (_ & Hp & _). specialize (Hp m x).
  destruct (predict L m x) as [r m']. simpl in *. congruence.
Qed.

Lemma keeps_call_decision_function (x : FV) :
  keeps (call_decision_function L x).
Proof.
  intros [m v df]. unfold call_decision_function, globals_of. simpl.
  destruct m as [m|]; [|reflexivity].
  destruct Hro as (_ & _ & Hd). specialize (Hd m x).
  destruct (decision_function L m x) as [r m']. simpl in *. congruence.
Qed.

Lemma keeps_predict_block (text : string) :
  keeps (predict_block L text).
Proof.
  unfold predict_block.
  apply keeps_bind; [apply keeps_call_transform | intros x].
  apply keeps_bind; [apply keeps_call_predict | intros labels].
  apply keeps_bind; [apply keeps_lift | intros hasil].
  apply keeps_bind; [apply keeps_call_decision_function | intros ms].
  walk_keeps.
Qed.

Lemma keeps_prediksi_manual (u : ui) : keeps (prediksi_manual L u).
Proof.
  unfold prediksi_manual.
  apply keeps_bind; [apply keeps_emit | intros _].
  apply keeps_bind; [apply keeps_get_model | intros model].
  apply keeps_bind; [apply keeps_get_vectorizer | intros vectorizer].
  destruct model, vectorizer; try apply keeps_ret.
  repeat (apply keeps_bind; [apply keeps_emit | intros _]).
  destruct (ui_button u); [|apply keeps_ret].
  destruct (truthy (strip (ui_user_input u))); [|apply keeps_emit].
  apply keeps_try_except; [apply keeps_predict_block | intros e].
  apply keeps_emit.
Qed.

Lemma keeps_page (u : ui) : keeps (page L u).
Proof.
  unfold page, view.
  repeat (apply keeps_bind; [apply keeps_emit | intros _]).
  apply keeps_bind.
  - destruct (ui_option u).
    + apply df_only_keeps, dashboard_df_only.
    + apply df_only_keeps, dataset_df_only.
    + apply keeps_prediksi_manual.
    + apply df_only_keeps, visualisasi_df_only.
  - intros _. walk_keeps.
Qed.

End Frame.

(** C9.  The page, with any view selected and on any text, never changes
    the global [df].  With artifacts whose three methods leave them as
    they were, a run of the Manual Prediction view ends with [model],
    [vectorizer] and [df] unchanged, and running it once more gives the
    same events (the same prediction box, label and confidence included)
    and the same result; the same holds of the whole page. *)
Theorem classification_idempotent {Obj FV : Type} (L : Lib Obj FV)
    (u : ui) (g : globals Obj) :
  g_df (globals_of (page L u g)) = g_df g
  /\ (read_only L ->
      (globals_of (prediksi_manual L u g) = g /\
       prediksi_manual L u (globals_of (prediksi_manual L u g)) =
       prediksi_manual L u g)
      /\ (globals_of (page L u g) = g /\
          page L u (globals_of (page L u g)) = page L u g)).
Proof.
  split; [apply keeps_df_page|].
  intros Hro. split; split.
  - apply keeps_prediksi_manual. assumption.
  - apply keeps_rerun, keeps_prediksi_manual. assumption.
  - apply keeps_page. assumption.
  - apply keeps_rerun, keeps_page. assumption.
Qed.

End Idempotence.

(** ** The statements on the fixtures *)

Module Evidence.

Import PyStr Builtins Props App Fixture.
Import Prediction Degradation Idempotence.

Local Open Scope Q_scope.

(** C1 on the review [Aplikasi ini sangat membantu]: the toy classifier
    answers [Positif] with margin 3/2. *)
Lemma classify_label_and_confidence_witness :
  prediksi_manual healthy (click "Aplikasi ini sangat membantu")
    loaded_globals =
    (loaded_globals,
     prediction_form ++
     [CallTransform ["Aplikasi ini sangat membantu"]; CallPredict;
      CallDecisionFunction;
      Html (ResultBox "#4CAF50" "😊" "POSITIF" (3 # 2))],
     Ok tt).
Proof.
  refine (@classify_label_and_confidence _ _ healthy
            (click "Aplikasi ini sangat membantu")
            model_file vectorizer_file None
            ["Aplikasi ini sangat membantu"%string]
            vectorizer_file model_file model_file
            "Positif" [] (3 # 2) [] _ _ _ _ _);
    [reflexivity | intros H; vm_compute in H; discriminate H
    | reflexivity | reflexivity | reflexivity].
Defined.

(** C2 on [POSITIF], [Negatif] and [netral]. *)
Lemma label_presentation_witness :
  styling "POSITIF" = positive_style /\
  styling "Negatif" = negative_style /\
  styling "netral" = neutral_style.
Proof.
  split; [|split].
  - apply (proj1 (label_presentation "POSITIF")).
    simpl. repeat split; right; reflexivity.
  - apply (proj1 (proj2 (label_presentation "Negatif"))).
    simpl. repeat split; first [left; reflexivity | right; reflexivity].
  - apply (proj2 (proj2 (label_presentation "netral")));
      intros H; vm_compute in H; intuition discriminate.
Defined.

(** C3 on a review the toy classifier gives the margin -5/4. *)
Lemma confidence_nonnegative_witness :
  In (Html (ResultBox "#F44336" "😞" "NEGATIF" (5 # 4)))
     (trace_of (run healthy (click "error terus x")))
  /\ 0 <= 5 # 4.
Proof.
  assert (H : In (Html (ResultBox "#F44336" "😞" "NEGATIF" (5 # 4)))
                 (trace_of (run healthy (click "error terus x")))).
  { vm_compute. repeat first [left; reflexivity | right]. }
  split; [exact H|].
  exact (@confidence_nonnegative _ _ healthy (click "error terus x")
           "#F44336" "😞" "NEGATIF" (5 # 4) H).
Defined.

(** C4 on a text of four blanks: a space, a no-break space (U+00A0), an
    em space (U+2003) and an ideographic space (U+3000). *)
Lemma empty_input_short_circuit_witness :
  prediksi_manual healthy
    (click (" " ++ utf8 160 ++ utf8 8195 ++ utf8 12288)) loaded_globals =
    (loaded_globals, prediction_form ++ [empty_input_prompt], Ok tt)
  /\ forallb (fun e => negb (is_call e))
       (trace_of (prediksi_manual healthy
                    (click (" " ++ utf8 160 ++ utf8 8195 ++ utf8 12288))
                    loaded_globals))
     = true.
Proof.
  apply (@empty_input_short_circuit _ _ healthy
           (click (" " ++ utf8 160 ++ utf8 8195 ++ utf8 12288))
           model_file vectorizer_file None); reflexivity.
Defined.




(** C6 on an empty [data/] folder with the Dashboard selected. *)
Lemma dashboard_crashes_without_dataset_witness :
  exists before,
    run no_dataset (UI Dashboard "" false 0) =
      (loaded_globals,
       before ++
       [dataset_not_found; Html SidebarBanner; SidebarRadio;
        Markdown "### 📊 Distribusi Sentimen Cepat"],
       Err (Raise AttributeError
              "'NoneType' object has no attribute 'columns'")).
Proof.
  apply (@dashboard_crashes_without_dataset _ _ no_dataset "" false 0
           (Some model_file, Some vectorizer_file)
           (not_found dataset_file));
    reflexivity.
Defined.

(** The other two views of the dataset return when [df] is [None]. *)
Lemma sibling_views_without_dataset :
  result_of (run no_dataset (UI Dataset "" false 0)) = Ok tt /\
  result_of (run no_dataset (UI VisualisasiSentimen "" false 0)) = Ok tt /\
  result_of (run no_dataset (click "Aplikasi ini sangat membantu")) = Ok tt.
Proof. repeat split. Qed.

(** C7 as stated fails on a file that is there and does not parse, and
    on a [stemming] cell that is not a literal: [load_data] raises, and
    so the run ends before any view. *)
Lemma unparsable_dataset_is_not_caught :
  read_csv unparsable_dataset dataset_file = Err parser_error
  /\ load_data unparsable_dataset unbound_globals =
       (unbound_globals, [], Err parser_error)
  /\ run unparsable_dataset (UI Dataset "" false 0) =
       (loaded_globals,
        [SetPageConfig; Html StyleSheet; Html MainHeader],
        Err parser_error)
  /\ literal_eval bad_stemming "aplikasi bagus" =
       Err (Raise SyntaxError "invalid syntax")
  /\ load_data bad_stemming unbound_globals =
       (unbound_globals, [], Err (Raise SyntaxError "invalid syntax")).
Proof. repeat split. Qed.

Lemma token_list_eval_errors (y : string) (e : exn) :
  token_list_eval y = Err e -> is_file_not_found e = false.
Proof.
  unfold token_list_eval. destruct (lex AtStart y); [discriminate|].
  intros H. injection H as <-. reflexivity.
Defined.

(** C7, amended, on the three fixtures. *)
Lemma load_data_catches_missing_file_only_witness :
  load_data no_dataset unbound_globals =
    (unbound_globals, [dataset_not_found], Ok None)
  /\ load_data unparsable_dataset unbound_globals =
       (unbound_globals, [], Err parser_error)
  /\ exists e, load_data bad_stemming unbound_globals =
                 (unbound_globals, [], Err e).
Proof.
  split; [|split].
  - apply (proj1 (load_data_catches_missing_file_only no_dataset
                    unbound_globals) (not_found dataset_file));
      reflexivity.
  - apply (proj1 (proj2 (load_data_catches_missing_file_only
                           unparsable_dataset unbound_globals))
             parser_error);
      reflexivity.
  - apply (proj2 (proj2 (load_data_catches_missing_file_only
                           bad_stemming unbound_globals))
             [("stemming", [CStr "['ok']"; CStr "aplikasi bagus"]);
              ("label", [CStr "positif"; CStr "positif"])]
             [CStr "['ok']"; CStr "aplikasi bagus"]
             "aplikasi bagus"
             (Raise SyntaxError "invalid syntax"));
      [exact token_list_eval_errors | reflexivity | reflexivity
      | simpl; auto | reflexivity].
Defined.

(** C8 on the three reviews of the fixture: the two serialized lists
    become the strings [aplikasi bagus] and [sering error], the missing
    cell stays, the other columns are as read. *)
Lemma stemming_cells_deserialized_witness :
  load_data healthy unbound_globals =
    (unbound_globals, [],
     Ok (Some [("content"%string,
                [CStr "Aplikasi bagus"; CStr "Sering error"; CStr "ok"]);
               ("stemming"%string,
                [CStr "aplikasi bagus"; CStr "sering error"; CNaN]);
               ("label"%string,
                [CStr "positif"; CStr "negatif"; CStr "positif"])]))
  /\ Frame.getitem "stemming" reviews =
       Ok [CStr "['aplikasi', 'bagus']"; CStr "['sering', 'error']"; CNaN]
  /\ Forall2 (deserialized healthy)
       [CStr "['aplikasi', 'bagus']"; CStr "['sering', 'error']"; CNaN]
       [CStr "aplikasi bagus"; CStr "sering error"; CNaN].
Proof.
  assert (F : Forall2 (deserialized healthy)
                [CStr "['aplikasi', 'bagus']"; CStr "['sering', 'error']";
                 CNaN]
                [CStr "aplikasi bagus"; CStr "sering error"; CNaN]).
  { repeat constructor.
    - exists ["aplikasi"; "bagus"]%string. split; reflexivity.
    - exists ["sering"; "error"]%string. split; reflexivity. }
  destruct (@stemming_cells_deserialized _ _ healthy unbound_globals reviews
              [CStr "['aplikasi', 'bagus']"; CStr "['sering', 'error']";
               CNaN] eq_refl eq_refl)
    as (df' & col' & Hload & _ & _ & _ & Hdf & Huniq).
  { intros x [H | [H | [H | []]]]; try discriminate; injection H as <-.
    - exists ["aplikasi"; "bagus"]%string. reflexivity.
    - exists ["sering"; "error"]%string. reflexivity. }
  rewrite <- (Huniq _ F) in Hdf. subst df'.
  split; [exact Hload | split; [reflexivity | exact F]].
Defined.

Lemma healthy_read_only : read_only healthy.
Proof. repeat split. Defined.

(** C9 on the healthy fixture. *)
Lemma classification_idempotent_witness :
  read_only healthy /\
  globals_of (prediksi_manual healthy (click "error terus x")
                loaded_globals) = loaded_globals /\
  prediksi_manual healthy (click "error terus x")
    (globals_of (prediksi_manual healthy (click "error terus x")
                   loaded_globals)) =
  prediksi_manual healthy (click "error terus x") loaded_globals.
Proof.
  split; [exact healthy_read_only|].
  exact (proj1 (proj2 (classification_idempotent healthy
                         (click "error terus x") loaded_globals)
                  healthy_read_only)).
Defined.

(** Without the hypothesis of C9 the second run can differ: the counting
    classifier answers with its own name, which each call changes. *)
Lemma counting_classifier_differs :
  trace_of (page counting (click "abc") loaded_globals) <>
  trace_of (page counting (click "abc")
              (globals_of (page counting (click "abc") loaded_globals))).
Proof. vm_compute. discriminate. Qed.

(** With a classifier of three classes the first element of what
    [decision_function] returns is a row: the format fails, the failure
    is caught and reported, and no prediction box is shown. *)
Lemma row_of_margins_is_reported :
  prediksi_manual three_classes (click "Aplikasi ini sangat membantu")
    loaded_globals =
    (loaded_globals,
     prediction_form ++
     [CallTransform ["Aplikasi ini sangat membantu"%string]; CallPredict;
      CallDecisionFunction;
      StError "❌ Terjadi kesalahan dalam prediksi: unsupported format string passed to numpy.ndarray.__format__"],
     Ok tt).
Proof. reflexivity. Qed.

(** C10 on an empty [model/] folder, and on the healthy fixture for the
    second part. *)
Lemma no_prediction_on_unloaded_artifact_witness :
  prediksi_manual no_artifacts (click "abc") unbound_globals =
    (unbound_globals, prediction_heading, Ok tt)
  /\ exists m v,
       joblib_load healthy "model/svm_model.pkl" = Ok m /\
       joblib_load healthy "model/vectorizer.pkl" = Ok v.
Proof.
  split.
  - apply (proj1 (no_prediction_on_unloaded_artifact no_artifacts
                    (click "abc"))).
    left. reflexivity.
  - apply (proj2 (no_prediction_on_unloaded_artifact healthy
                    (click "abc")) CallPredict).
    + vm_compute. repeat first [left; reflexivity | right].
    + reflexivity.
Defined.

End Evidence.

(** ** More on computations: never raising, and what a run keeps *)

Module RunMore.

Import Props Shape RunFacts.

Section Facts.

Context {Obj : Type}.
Local Abbreviation M := (@Run.M Obj).

Lemma returns_ret {A} (a : A) : returns (Run.ret a : M A).
Proof. intros g. exists a. reflexivity. Qed.

Lemma returns_emit (e : event) : returns (Run.emit e : M unit).
Proof. intros g. exists tt. reflexivity. Qed.

Lemma returns_get_model : returns (@Run.get_model Obj).
Proof. intros g. eexists. reflexivity. Qed.

Lemma returns_get_vectorizer : returns (@Run.get_vectorizer Obj).
Proof. intros g. eexists. reflexivity. Qed.

Lemma returns_get_df : returns (@Run.get_df Obj).
Proof. intros g. eexists. reflexivity. Qed.

Lemma returns_bind {A B} (m : M A) (f : A -> M B) :
  returns m -> (forall a, returns (f a)) -> returns (Run.bind m f).
Proof.
  intros Hm Hf g. unfold Run.bind, result_of.
  destruct (Hm g) as [a Ha]. unfold result_of in Ha.
  destruct (m g) as [[g1 t1] r]. simpl in Ha. subst r.
  destruct (Hf a g1) as [b Hb]. unfold result_of in Hb.
  destruct (f a g1) as [[g2 t2] r2]. simpl in *. eauto.
Qed.

(** A [try] whose handler catches everything and returns, returns. *)
Lemma returns_try_except {A} (body : M A) (catches : exn -> bool)
    (handler : exn -> M A) :
  (forall e, catches e = true) -> (forall e, returns (handler e)) ->
  returns (Run.try_except body catches handler).
Proof.
  intros Hc Hh g. unfold Run.try_except, result_of.
  destruct (body g) as [[g1 t1] [a | e]]; simpl; [eauto|].
  rewrite Hc. destruct (Hh e g1) as [b Hb]. unfold result_of in Hb.
  destruct (handler e g1) as [[g2 t2] r2]. simpl in *. eauto.
Qed.

Variable X : Type.
Variable f : globals Obj -> X.




End Facts.

Lemma calls_of_app (t1 t2 : list event) :
  calls_of (t1 ++ t2) = calls_of t1 ++ calls_of t2.
Proof. apply filter_app. Qed.

Lemma calls_of_outside (t : list event) :
  Forall outside_prediction t -> calls_of t = [].
Proof.
  induction 1 as [|e t [He _] _ IH]; [reflexivity|].
  unfold calls_of in *. simpl. rewrite IH.
  destruct e; simpl in *; try reflexivity; discriminate.
Qed.

Lemma calls_of_calls (t : list event) :
  forallb is_call t = true -> calls_of t = t.
Proof.
  induction t as [|e t IH]; [reflexivity|]. simpl.
  intros H. apply andb_prop in H as [He Ht].
  unfold calls_of in *. simpl. rewrite He, IH by assumption. reflexivity.
Qed.

End RunMore.

(** ** More on manual prediction *)

Module PredictionMore.

Import PyStr PyStrFacts Builtins Props Shape RunFacts RunMore App AppFacts.
Import Prediction.

Section Block.

Context {Obj FV : Type} (L : Lib Obj FV).

(** The body of the [try] from loaded artifacts: either it raises after
    one, two or three calls, made in program order, or it makes the three
    calls and shows one prediction box. *)
Lemma predict_block_shape (text : string) (m v : Obj) (df : option table) :
  exists m' v' n, 1 <= n <= 3 /\
    ((exists e,
         predict_block L text (Globals (Some m) (Some v) df) =
           (Globals (Some m') (Some v') df,
            firstn n (call_sequence text), Err e))
     \/ (exists color emoji label confidence,
            predict_block L text (Globals (Some m) (Some v) df) =
              (Globals (Some m') (Some v') df,
               call_sequence text ++
               [Html (ResultBox color emoji label confidence)],
               Ok tt))).
Proof.
  cbv [predict_block Run.bind Run.emit Run.lift call_transform call_predict
       call_decision_function g_model g_vectorizer g_df call_sequence].
  destruct (transform L v [text]) as [[x | e] v'];
    [|exists m, v', 1; split; [lia | left; exists e; reflexivity]].
  destruct (predict L m x) as [[labels | e] m'];
    [|exists m', v', 2; split; [lia | left; exists e; reflexivity]].
  destruct (getitem0 labels) as [hasil | e];
    [|exists m', v', 2; split; [lia | left; exists e; reflexivity]].
  destruct (decision_function L m' x) as [[margins | e] m''];
    [|exists m'', v', 3; split; [lia | left; exists e; reflexivity]].
  exists m'', v', 3. split; [lia|].
  destruct (getitem0 margins) as [confidence | e];
    [|left; exists e; reflexivity].
  destruct (str_receiver "lower" hasil) as [label | e];
    [|left; exists e; reflexivity].
  destruct (styling label) as [emoji color].
  destruct (format_abs confidence) as [shown | e];
    [|left; exists e; reflexivity].
  right. exists color, emoji, (str_upper L label), shown. reflexivity.
Qed.

(** What the view does when the button is clicked on a text that is not
    blank: the form, the calls, and one answer. *)
Lemma prediksi_manual_clicked (u : ui) (m v : Obj) (df : option table) :
  ui_button u = true ->
  all_space (ui_user_input u) = false ->
  exists m' v' n answer, 1 <= n <= 3 /\
    prediksi_manual L u (Globals (Some m) (Some v) df) =
      (Globals (Some m') (Some v') df,
       prediction_form ++ firstn n (call_sequence (ui_user_input u)) ++
       [answer],
       Ok tt)
    /\ ((exists e, answer = prediction_error e) \/
        (n = 3 /\ exists color emoji label confidence,
            answer = Html (ResultBox color emoji label confidence))).
Proof.
  intros Hb Hs.
  destruct (predict_block_shape (ui_user_input u) m v df)
    as (m' & v' & n & Hn & H).
  assert (Ht : truthy (strip (ui_user_input u)) = true)
    by (rewrite strip_empty_iff, Hs; reflexivity).
  destruct H as [(e & E) | (color & emoji & label & c & E)].
  - exists m', v', n, (prediction_error e).
    split; [assumption|]. split; [|eauto].
    unfold prediction_form, prediction_heading.
    cbv [prediksi_manual Run.bind Run.emit Run.get_model
         Run.get_vectorizer g_model g_vectorizer g_df app].
    rewrite Hb, Ht. cbv [Run.try_except]. rewrite E.
    cbv [is_exception Run.emit]. reflexivity.
  - exists m', v', 3, (Html (ResultBox color emoji label c)).
    split; [lia|]. split; [|right; split; [reflexivity | eauto]].
    unfold prediction_form, prediction_heading.
    cbv [prediksi_manual Run.bind Run.emit Run.get_model
         Run.get_vectorizer g_model g_vectorizer g_df app].
    rewrite Hb, Ht. cbv [Run.try_except]. rewrite E. reflexivity.
Qed.

End Block.

Section Answers.

Context {Obj FV : Type} (L : Lib Obj FV).

Lemma prediksi_manual_always_returns (u : ui) :
  returns (prediksi_manual L u).
Proof.
  unfold prediksi_manual.
  apply returns_bind; [apply returns_emit | intros _].
  apply returns_bind; [apply returns_get_model | intros model].
  apply returns_bind; [apply returns_get_vectorizer | intros vectorizer].
  destruct model, vectorizer; try apply returns_ret.
  repeat (apply returns_bind; [apply returns_emit | intros _]).
  destruct (ui_button u); [|apply returns_ret].
  destruct (truthy (strip (ui_user_input u))); [|apply returns_emit].
  apply returns_try_except; [reflexivity | intros e; apply returns_emit].
Qed.

(** X1.  The Manual Prediction view never raises: whatever the artifacts
    do (raise, return nothing, return values of the wrong kind), and
    whatever the globals hold, the view returns. *)
Theorem prediction_view_never_raises (u : ui) (g : globals Obj) :
  result_of (prediksi_manual L u g) = Ok tt.
Proof.
  destruct (prediksi_manual_always_returns u g) as [[] H]. exact H.
Qed.

Lemma prediksi_manual_blank (u : ui) (m v : Obj) (df : option table) :
  ui_button u = true ->
  all_space (ui_user_input u) = true ->
  prediksi_manual L u (Globals (Some m) (Some v) df) =
    (Globals (Some m) (Some v) df,
     prediction_form ++ [empty_input_prompt], Ok tt).
Proof.
  intros Hb Hs.
  unfold prediksi_manual, Run.bind, Run.emit, Run.get_model,
    Run.get_vectorizer.
  simpl. rewrite Hb, strip_empty_iff, Hs. reflexivity.
Qed.

Lemma prediksi_manual_idle (u : ui) (m v : Obj) (df : option table) :
  ui_button u = false ->
  prediksi_manual L u (Globals (Some m) (Some v) df) =
    (Globals (Some m) (Some v) df, prediction_form, Ok tt).
Proof.
  intros Hb.
  unfold prediksi_manual, Run.bind, Run.emit, Run.get_model,
    Run.get_vectorizer.
  simpl. rewrite Hb. reflexivity.
Qed.

Lemma firstn_calls (n : nat) (text : string) :
  forallb is_call (firstn n (call_sequence text)) = true.
Proof. destruct n as [|[|[|[|n]]]]; reflexivity. Qed.

(** X2.  With both artifacts loaded, a click always gets exactly one
    answer, shown last: after the form come only calls of the artifacts
    and then one event that is the empty-input warning, the notice of a
    failed prediction, or the prediction box. *)
Theorem click_gets_one_answer (u : ui) (m v : Obj) (df : option table) :
  ui_button u = true ->
  exists calls answer,
    trace_of (prediksi_manual L u (Globals (Some m) (Some v) df)) =
      prediction_form ++ calls ++ [answer]
    /\ forallb is_call calls = true
    /\ is_answer answer = true.
Proof.
  intros Hb. destruct (all_space (ui_user_input u)) eqn:Hs.
  - exists [], empty_input_prompt.
    rewrite (prediksi_manual_blank _ _ _ _ Hb Hs). auto.
  - destruct (prediksi_manual_clicked L u m v df Hb Hs)
      as (m' & v' & n & answer & Hn & E & Ha).
    exists (firstn n (call_sequence (ui_user_input u))), answer.
    rewrite E. split; [reflexivity|]. split; [apply firstn_calls|].
    destruct Ha as [(e & ->) | (_ & c & em & l & q & ->)]; reflexivity.
Qed.

(** X3.  A failure stops the sequence of calls and is reported with its
    own message.  When [transform] raises, [predict] is not called; when
    [transform] returns and [predict] raises, [decision_function] is not
    called.  In both cases the notice ends with [str(e)] and the view
    returns. *)
Theorem failure_stops_the_calls (u : ui) (m v : Obj) (df : option table) :
  ui_button u = true ->
  strip (ui_user_input u) <> EmptyString ->
  (forall e v',
      transform L v [ui_user_input u] = (Err e, v') ->
      prediksi_manual L u (Globals (Some m) (Some v) df) =
        (Globals (Some m) (Some v') df,
         prediction_form ++
         [CallTransform [ui_user_input u]; prediction_error e],
         Ok tt))
  /\ (forall x v' e m',
        transform L v [ui_user_input u] = (Ok x, v') ->
        predict L m x = (Err e, m') ->
        prediksi_manual L u (Globals (Some m) (Some v) df) =
          (Globals (Some m') (Some v') df,
           prediction_form ++
           [CallTransform [ui_user_input u]; CallPredict;
            prediction_error e],
           Ok tt)).
Proof.
  intros Hb Hs. split.
  - intros e v' Ht.
    unfold prediction_form, prediction_heading.
    cbv [prediksi_manual Run.bind Run.emit Run.get_model
         Run.get_vectorizer g_model g_vectorizer g_df app].
    rewrite Hb, (@truthy_strip _ Hs).
    cbv [Run.try_except predict_block Run.bind Run.emit Run.lift
         call_transform call_predict call_decision_function
         g_model g_vectorizer g_df].
    rewrite Ht. reflexivity.
  - intros x v' e m' Ht Hp.
    unfold prediction_form, prediction_heading.
    cbv [prediksi_manual Run.bind Run.emit Run.get_model
         Run.get_vectorizer g_model g_vectorizer g_df app].
    rewrite Hb, (@truthy_strip _ Hs).
    cbv [Run.try_except predict_block Run.bind Run.emit Run.lift
         call_transform call_predict call_decision_function
         g_model g_vectorizer g_df].
    rewrite Ht. cbv beta iota. rewrite Hp. reflexivity.
Qed.

(** X4.  When [predict] returns an empty sequence, taking its first
    element raises [IndexError]: the notice is shown,
    [decision_function] is not called and the view returns. *)
Theorem empty_prediction_is_reported
    (u : ui) (m v : Obj) (df : option table) (x : FV) (v' m' : Obj) :
  ui_button u = true ->
  strip (ui_user_input u) <> EmptyString ->
  transform L v [ui_user_input u] = (Ok x, v') ->
  predict L m x = (Ok (PySeq []), m') ->
  exists e,
    exn_cls e = IndexError /\
    prediksi_manual L u (Globals (Some m) (Some v) df) =
      (Globals (Some m') (Some v') df,
       prediction_form ++
       [CallTransform [ui_user_input u]; CallPredict; prediction_error e],
       Ok tt).
Proof.
  intros Hb Hs Ht Hp. eexists. split; [|].
  2:{ unfold prediction_form, prediction_heading.
      cbv [prediksi_manual Run.bind Run.emit Run.get_model
           Run.get_vectorizer g_model g_vectorizer g_df app].
      rewrite Hb, (@truthy_strip _ Hs).
      cbv [Run.try_except predict_block Run.bind Run.emit Run.lift
           call_transform call_predict call_decision_function
           g_model g_vectorizer g_df].
      rewrite Ht. cbv beta iota. rewrite Hp. reflexivity. }
  reflexivity.
Qed.

(** The calls of a view: none unless it is the Manual Prediction view with
    the button clicked on a text that is not blank, and then the first
    calls of the sequence. *)
Lemma view_calls (u : ui) (g : globals Obj) :
  exists n,
    calls_of (trace_of (view L u g)) =
      firstn n (call_sequence (ui_user_input u))
    /\ (n <> 0 ->
        ui_option u = PrediksiManual /\ ui_button u = true /\
        all_space (ui_user_input u) = false).
Proof.
  unfold view. destruct (ui_option u) eqn:Ho.
  - exists 0. split; [|congruence].
    apply calls_of_outside, dashboard_outside.
  - exists 0. split; [|congruence].
    apply calls_of_outside, dataset_outside.
  - destruct g as [[m|] [v|] df];
      try (exists 0; split; [|congruence];
           rewrite Page.prediksi_manual_disabled by (simpl; auto);
           reflexivity).
    destruct (ui_button u) eqn:Hb.
    + destruct (all_space (ui_user_input u)) eqn:Hs.
      * exists 0. split; [|congruence].
        rewrite (prediksi_manual_blank _ _ _ _ Hb Hs). reflexivity.
      * destruct (prediksi_manual_clicked L u m v df Hb Hs)
          as (m' & v' & n & answer & Hn & E & Ha).
        exists n. split; [|auto].
        rewrite E. unfold trace_of. cbv [snd fst].
        rewrite !calls_of_app, (calls_of_calls _ (firstn_calls n _)).
        destruct Ha as [(e & ->) | (_ & c & em & l & q & ->)];
          simpl; apply app_nil_r.
    + exists 0. split; [|congruence].
      rewrite (prediksi_manual_idle _ _ _ _ Hb). reflexivity.
  - exists 0. split; [|congruence].
    apply calls_of_outside, visualisasi_outside.
Qed.

Lemma page_calls (u : ui) (g : globals Obj) :
  calls_of (trace_of (page L u g)) = calls_of (trace_of (view L u g)).
Proof.
  rewrite Page.page_eq. unfold trace_of.
  destruct (view L u g) as [[g1 t1] [[] | e]]; cbv [snd fst].
  - rewrite !calls_of_app. simpl. apply app_nil_r.
  - rewrite !calls_of_app. reflexivity.
Qed.

(** X5.  In every run of the script the artifacts' methods are called at
    most once each and in the order [transform], [predict],
    [decision_function], [transform] on the one-element list holding the
    text as typed (not stripped); and no call is made unless the Manual
    Prediction view is selected, the button was clicked and the text is
    not blank. *)
Theorem calls_of_a_run (u : ui) :
  exists n,
    calls_of (trace_of (run L u)) =
      firstn n (call_sequence (ui_user_input u))
    /\ (n <> 0 ->
        ui_option u = PrediksiManual /\ ui_button u = true /\
        all_space (ui_user_input u) = false).
Proof.
  rewrite Page.run_eq.
  pose proof (load_models_outside L (Globals None None None)) as H0.
  unfold trace_of in H0.
  destruct (load_models L (Globals None None None)) as [[g0 t0] [ld | e]];
    simpl in H0.
  - cbv zeta.
    pose proof (load_data_outside L (Globals (fst ld) (snd ld) None)) as H1.
    unfold trace_of in H1.
    destruct (load_data L (Globals (fst ld) (snd ld) None))
      as [[g1 t1] [df | e]]; simpl in H1.
    + destruct (view_calls u (Globals (fst ld) (snd ld) df)) as (n & E & Hn).
      exists n. split; [|assumption].
      rewrite <- E, <- page_calls. unfold trace_of.
      destruct (page L u (Globals (fst ld) (snd ld) df)) as [[g2 t2] r2].
      cbv [snd fst]. rewrite !calls_of_app.
      rewrite (calls_of_outside H0), (calls_of_outside H1). reflexivity.
    + exists 0. split; [|congruence]. unfold trace_of. cbv [snd fst].
      rewrite !calls_of_app.
      rewrite (calls_of_outside H0), (calls_of_outside H1). reflexivity.
  - exists 0. split; [|congruence]. unfold trace_of. cbv [snd fst].
    rewrite !calls_of_app, (calls_of_outside H0). reflexivity.
Qed.

End Answers.

End PredictionMore.

(** ** The Dataset view *)

Module DatasetView.

Import Props Shape App.

Lemma head_columns (n : nat) (df : table) :
  Frame.columns (Frame.head n df) = Frame.columns df.
Proof.
  unfold Frame.columns, Frame.head. rewrite map_map. reflexivity.
Qed.

Lemma head_bounded (n : nat) (df : table) :
  Forall (fun kc => length (snd kc) <= n) (Frame.head n df).
Proof.
  unfold Frame.head. apply Forall_map, Forall_forall. intros [k col] _.
  simpl. rewrite length_firstn. apply Nat.le_min_l.
Qed.

Lemma head_whole (n : nat) (df : table) :
  rectangular df -> Frame.len df <= n -> Frame.head n df = df.
Proof.
  unfold rectangular, Frame.head. generalize (Frame.len df) as rows.
  intros rows Hrect Hn. induction Hrect as [|[k col] df Hk _ IH];
    [reflexivity|].
  simpl in *. rewrite IH. rewrite firstn_all2 by lia. reflexivity.
Qed.

Lemma selected_rows_option (u : ui) (df : table) :
  In (selected_rows u df) [10; 20; 50; 100; Frame.len df].
Proof.
  unfold selected_rows.
  destruct (ui_show_rows u) as [|[|[|[|[|k]]]]]; simpl; auto 6.
  destruct k; auto.
Qed.

Lemma selected_rows_small (u : ui) (df : table) :
  Frame.len df <= 10 -> Frame.len df <= selected_rows u df.
Proof.
  intros H. pose proof (selected_rows_option u df) as Hin.
  simpl in Hin. lia.
Qed.

Section View.

Context {Obj : Type}.

Lemma dataset_with_df (u : ui) (m v : option Obj) (df : table) :
  dataset u (Globals m v (Some df)) =
    (Globals m v (Some df),
     dataset_preamble (Frame.len df) (length (Frame.columns df)) ++
     [DataFrame (Frame.head (selected_rows u df) df); download_button df],
     Ok tt).
Proof. reflexivity. Qed.

(** X6.  The Dataset view never raises.  The table it shows has the
    columns of the frame and at most as many rows as the selection box
    returned, which is one of 10, 20, 50, 100 and [len(df)]; the download
    button carries the whole frame whatever is selected. *)
Theorem dataset_preview_is_bounded (u : ui) (m v : option Obj) (df : table) :
  exists shown,
    dataset u (Globals m v (Some df)) =
      (Globals m v (Some df),
       dataset_preamble (Frame.len df) (length (Frame.columns df)) ++
       [DataFrame shown; download_button df],
       Ok tt)
    /\ Frame.columns shown = Frame.columns df
    /\ Forall (fun kc => length (snd kc) <= selected_rows u df) shown
    /\ In (selected_rows u df) [10; 20; 50; 100; Frame.len df].
Proof.
  exists (Frame.head (selected_rows u df) df).
  split; [apply dataset_with_df|].
  split; [apply head_columns|].
  split; [apply head_bounded | apply selected_rows_option].
Qed.

(** X7.  On a frame whose columns all have the frame's number of rows,
    the table shown is the whole frame when the last entry of the
    selection box ([len(df)], position 4) is selected, and also, whatever
    is selected, when the frame has at most 10 rows. *)
Theorem dataset_shows_whole_frame (u : ui) (m v : option Obj) (df : table) :
  rectangular df ->
  ui_show_rows u = 4 \/ Frame.len df <= 10 ->
  dataset u (Globals m v (Some df)) =
    (Globals m v (Some df),
     dataset_preamble (Frame.len df) (length (Frame.columns df)) ++
     [DataFrame df; download_button df],
     Ok tt).
Proof.
  intros Hrect Hsel. rewrite dataset_with_df.
  rewrite head_whole; [reflexivity | assumption |].
  destruct Hsel as [H4 | Hsmall].
  - unfold selected_rows. rewrite H4. simpl. lia.
  - apply selected_rows_small. assumption.
Qed.

End View.

End DatasetView.

(** ** More on loading the dataset *)

Module LoadingMore.

Import PyStr Builtins Props Shape RunFacts App AppFacts Loading.

Lemma getitem_missing (name : string) (df : table) :
  Frame.has_column name df = false ->
  Frame.getitem name df = Err (Raise KeyError ("'" ++ name ++ "'")).
Proof.
  unfold Frame.has_column, Frame.columns.
  induction df as [|[k old] df IH]; simpl; [reflexivity|].
  rewrite (String.eqb_sym name k).
  destruct (String.eqb k name); simpl; [discriminate | exact IH].
Qed.

Lemma setitem_same (name : string) (col : list cell) (df : table) :
  Frame.getitem name df = Ok col -> Frame.setitem name col df = df.
Proof.
  induction df as [|[k old] df IH]; simpl; [discriminate|].
  destruct (String.eqb k name) eqn:E.
  - intros H. injection H as ->. reflexivity.
  - intros H. rewrite IH by assumption. reflexivity.
Qed.

Lemma setitem_columns (name : string) (col col' : list cell) (df : table) :
  Frame.getitem name df = Ok col ->
  Frame.columns (Frame.setitem name col' df) = Frame.columns df.
Proof.
  unfold Frame.columns.
  induction df as [|[k old] df IH]; simpl; [discriminate|].
  destruct (String.eqb k name) eqn:E; simpl; [reflexivity|].
  intros H. rewrite IH by assumption. reflexivity.
Qed.

Lemma setitem_lengths (name : string) (col col' : list cell) (df : table) :
  Frame.getitem name df = Ok col ->
  length col' = length col ->
  map (fun kc => length (snd kc)) (Frame.setitem name col' df) =
  map (fun kc => length (snd kc)) df.
Proof.
  induction df as [|[k old] df IH]; simpl; [discriminate|].
  destruct (String.eqb k name) eqn:E; simpl.
  - intros H Hl. injection H as ->. rewrite Hl. reflexivity.
  - intros H Hl. rewrite IH by assumption. reflexivity.
Qed.

Lemma apply_length (f : cell -> result cell) (col col' : list cell) :
  Run.apply f col = Ok col' -> length col' = length col.
Proof.
  revert col'. induction col as [|x col IH]; simpl; intros col' H.
  - injection H as <-. reflexivity.
  - destruct (f x) as [y | e]; [|discriminate].
    destruct (Run.apply f col) as [ys | e]; [|discriminate].
    injection H as <-. simpl. rewrite (IH ys eq_refl). reflexivity.
Qed.

Section Loading.

Context {Obj FV : Type} (L : Lib Obj FV).

Lemma apply_without_strings (col : list cell) :
  (forall x, ~ In (CStr x) col) ->
  Run.apply (stemming_lambda L) col = Ok col.
Proof.
  induction col as [|c col IH]; intros H; [reflexivity|].
  simpl. destruct c as [s | q |].
  - exfalso. apply (H s). left. reflexivity.
  - simpl. rewrite IH; [reflexivity|]. intros x Hx. apply (H x). right.
    assumption.
  - simpl. rewrite IH; [reflexivity|]. intros x Hx. apply (H x). right.
    assumption.
Qed.

(** What [load_data] returned when it returned a frame. *)
Lemma load_data_inversion (g g' : globals Obj) (t : list event)
    (df' : table) :
  load_data L g = (g', t, Ok (Some df')) ->
  exists df col col',
    read_csv L "data/hasil_preprocessing_mobile_jkn.csv" = Ok df /\
    Frame.getitem "stemming" df = Ok col /\
    Run.apply (stemming_lambda L) col = Ok col' /\
    df' = Frame.setitem "stemming" col' df /\ g' = g /\ t = [].
Proof.
  unfold load_data, Run.try_except, Run.bind, Run.lift, Run.ret, Run.emit.
  destruct (read_csv L "data/hasil_preprocessing_mobile_jkn.csv")
    as [df | e] eqn:Er.
  - destruct (Frame.getitem "stemming" df) as [col | e] eqn:Ec.
    + destruct (Run.apply (stemming_lambda L) col) as [col' | e] eqn:Ea.
      * intros H. injection H as <- <- <-.
        exists df, col, col'. repeat split; assumption.
      * destruct (is_file_not_found e); discriminate.
    + destruct (is_file_not_found e); discriminate.
  - destruct (is_file_not_found e); discriminate.
Qed.

(** X8.  When [load_data] returns a frame, it is the frame read from the
    file with the same column names in the same order and the same number
    of values in every column; every column but [stemming] is as read;
    nothing was shown and the globals were not touched. *)
Theorem load_data_keeps_shape (g g' : globals Obj) (t : list event)
    (df' : table) :
  load_data L g = (g', t, Ok (Some df')) ->
  exists df,
    read_csv L "data/hasil_preprocessing_mobile_jkn.csv" = Ok df
    /\ g' = g /\ t = []
    /\ Frame.columns df' = Frame.columns df
    /\ map (fun kc => length (snd kc)) df' =
       map (fun kc => length (snd kc)) df
    /\ (forall other, other <> "stemming"%string ->
                      Frame.getitem other df' = Frame.getitem other df).
Proof.
  intros H.
  destruct (load_data_inversion _ H)
    as (df & col & col' & Hr & Hc & Ha & -> & -> & ->).
  exists df. repeat (split; [solve [auto]|]).
  split; [eapply setitem_columns; eassumption|].
  split; [eapply setitem_lengths; [eassumption|];
          eapply apply_length; eassumption|].
  intros other Hne. rewrite getitem_setitem_other by assumption.
  destruct (Frame.getitem other df) as [c | e]; [reflexivity|].
  rewrite (getitem_has_column _ _ Hc). reflexivity.
Qed.

(** X9.  When the file is read and has no [stemming] column,
    [load_data] raises [KeyError] for that name: the handler does not
    catch it and nothing is reported. *)
Theorem load_data_needs_the_stemming_column (g : globals Obj) (df : table) :
  read_csv L "data/hasil_preprocessing_mobile_jkn.csv" = Ok df ->
  Frame.has_column "stemming" df = false ->
  load_data L g = (g, [], Err (Raise KeyError "'stemming'")).
Proof.
  intros Hr Hc.
  unfold load_data, Run.try_except, Run.bind, Run.lift, Run.ret, Run.emit.
  rewrite Hr, (getitem_missing _ _ Hc). reflexivity.
Qed.

(** X10.  When no cell of [stemming] is a string (the column holds only
    missing values or numbers), [load_data] returns the frame exactly as
    read. *)
Theorem load_data_without_string_cells
    (g : globals Obj) (df : table) (col : list cell) :
  read_csv L "data/hasil_preprocessing_mobile_jkn.csv" = Ok df ->
  Frame.getitem "stemming" df = Ok col ->
  (forall x, ~ In (CStr x) col) ->
  load_data L g = (g, [], Ok (Some df)).
Proof.
  intros Hr Hc Hno.
  rewrite (load_data_read_ok _ _ Hr Hc).
  rewrite apply_without_strings by auto.
  rewrite (setitem_same _ _ Hc). reflexivity.
Qed.

End Loading.

End LoadingMore.

(** ** The Visualisation view *)

Module VisualisasiView.

Import PyStr Builtins Props Shape RunFacts RunMore App AppFacts Loading.

Local Open Scope Q_scope.

(** *** Distinct values and their counts *)

Lemma same_value_refl (c : cell) : Frame.same_value c c = true.
Proof.
  destruct c as [s | q |]; simpl; [apply String.eqb_refl | | reflexivity].
  apply Qeq_bool_iff. reflexivity.
Qed.

Lemma cell_eqb_string (c v : cell) :
  is_string_cell c = true -> cell_eqb c v = true -> c = v.
Proof.
  destruct c as [s | q |]; try discriminate. intros _.
  destruct v as [t | q |]; simpl; try discriminate.
  intros H. apply String.eqb_eq in H. congruence.
Qed.

Lemma cell_eqb_string_refl (c : cell) :
  is_string_cell c = true -> cell_eqb c c = true.
Proof.
  destruct c as [s | q |]; try discriminate. intros _.
  apply String.eqb_refl.
Qed.

Lemma same_value_string (c v : cell) :
  is_string_cell c = true -> Frame.same_value c v = true -> c = v.
Proof.
  intros Hc H. apply cell_eqb_string; [assumption|].
  destruct c; try discriminate. destruct v; simpl in *; assumption.
Qed.

Lemma same_value_kind (c v : cell) :
  Frame.same_value c v = true -> is_string_cell v = is_string_cell c.
Proof. destruct c, v; simpl; intros H; try discriminate; reflexivity. Qed.

Lemma unique_from_in (seen col : list cell) (y : cell) :
  In y (Frame.unique_from seen col) ->
  In y col /\ existsb (Frame.same_value y) seen = false.
Proof.
  revert seen. induction col as [|x col IH]; intros seen; simpl;
    [contradiction|].
  destruct (existsb (Frame.same_value x) seen) eqn:E.
  - intros H. destruct (IH _ H). auto.
  - intros [<- | H]; [auto|].
    destruct (IH _ H) as [Hin Hs]. split; [auto|].
    simpl in Hs. apply orb_false_elim in Hs. tauto.
Qed.

Lemma unique_from_nodup (seen col : list cell) :
  NoDup (Frame.unique_from seen col).
Proof.
  revert seen. induction col as [|x col IH]; intros seen; simpl;
    [constructor|].
  destruct (existsb (Frame.same_value x) seen); [apply IH|].
  constructor; [|apply IH].
  intros H. apply unique_from_in in H as [_ H].
  simpl in H. rewrite same_value_refl in H. discriminate.
Qed.

(** Every value of the column has its like among the values seen or the
    distinct values kept. *)
Lemma unique_from_covers (seen col : list cell) (x : cell) :
  In x col ->
  exists y, (In y seen \/ In y (Frame.unique_from seen col)) /\
            Frame.same_value x y = true.
Proof.
  revert seen. induction col as [|c col IH]; intros seen; simpl;
    [contradiction|].
  intros [-> | Hin].
  - destruct (existsb (Frame.same_value x) seen) eqn:E.
    + apply existsb_exists in E as (y & Hy & Hs). exists y. auto.
    + exists x. split; [right; left; reflexivity | apply same_value_refl].
  - destruct (existsb (Frame.same_value c) seen) eqn:E.
    + apply IH. assumption.
    + destruct (IH (c :: seen) Hin) as (y & [[<- | Hy] | Hy] & Hs).
      * exists c. split; [right; left; reflexivity | assumption].
      * exists y. auto.
      * exists y. split; [right; right; assumption | assumption].
Qed.

Lemma unique_strings (col : list cell) :
  forallb is_string_cell col = true ->
  forallb is_string_cell (Frame.unique col) = true.
Proof.
  intros H. apply forallb_forall. intros y Hy.
  apply unique_from_in in Hy as [Hy _].
  rewrite forallb_forall in H. auto.
Qed.

Lemma unique_covers_strings (col : list cell) (x : cell) :
  forallb is_string_cell col = true -> In x col -> In x (Frame.unique col).
Proof.
  intros H Hx. destruct (unique_from_covers [] col x Hx) as (y & [[] | Hy] & Hs).
  rewrite forallb_forall in H.
  rewrite (same_value_string x y (H x Hx) Hs). assumption.
Qed.

Lemma count_eq_cons (v x : cell) (col : list cell) :
  Frame.count_eq v (x :: col) =
  ((if cell_eqb x v then 1 else 0) + Frame.count_eq v col)%nat.
Proof.
  unfold Frame.count_eq. simpl. destruct (cell_eqb x v); reflexivity.
Qed.

Lemma ones_absent (l : list cell) (x : cell) :
  is_string_cell x = true -> ~ In x l ->
  fold_right (fun v acc => ((if cell_eqb x v then 1 else 0) + acc)%nat)
    0%nat l = 0%nat.
Proof.
  intros Hx. induction l as [|v l IH]; simpl; [reflexivity|].
  intros Hn. destruct (cell_eqb x v) eqn:E.
  - exfalso. apply Hn. left. symmetry. apply cell_eqb_string; assumption.
  - rewrite IH; [reflexivity|]. intros H. apply Hn. right. assumption.
Qed.

Lemma ones_present (l : list cell) (x : cell) :
  is_string_cell x = true -> NoDup l -> In x l ->
  fold_right (fun v acc => ((if cell_eqb x v then 1 else 0) + acc)%nat)
    0%nat l = 1%nat.
Proof.
  intros Hx Hnd. induction Hnd as [|v l Hv Hnd IH]; simpl; [contradiction|].
  intros [-> | Hin].
  - rewrite cell_eqb_string_refl by assumption.
    rewrite ones_absent by assumption. reflexivity.
  - destruct (cell_eqb x v) eqn:E.
    + exfalso. apply Hv.
      rewrite <- (cell_eqb_string x v Hx E). assumption.
    + apply IH. assumption.
Qed.

(** The counts of the distinct values add up to the number of rows. *)
Lemma counts_add_up (l col : list cell) :
  NoDup l ->
  forallb is_string_cell col = true ->
  (forall x, In x col -> In x l) ->
  fold_right (fun v acc => (Frame.count_eq v col + acc)%nat) 0%nat l =
  length col.
Proof.
  intros Hnd. induction col as [|x col IH]; intros Hs Hin.
  - clear. induction l as [|v l IH]; simpl; [reflexivity | exact IH].
  - simpl in Hs. apply andb_prop in Hs as [Hx Hs].
    assert (E : fold_right
                  (fun v acc => (Frame.count_eq v (x :: col) + acc)%nat)
                  0%nat l =
                (fold_right
                   (fun v acc => ((if cell_eqb x v then 1 else 0) + acc)%nat)
                   0%nat l +
                 fold_right (fun v acc => (Frame.count_eq v col + acc)%nat)
                   0%nat l)%nat).
    { clear. induction l as [|v l IH]; simpl; [reflexivity|].
      rewrite IH, count_eq_cons. lia. }
    rewrite E, IH, ones_present; simpl; auto.
    + apply Hin. left. reflexivity.
    + intros y Hy. apply Hin. right. assumption.
Qed.

Lemma sum_values_metrics (title : string -> string) (total : nat)
    (col l : list cell) :
  sum_values (map (metric_of title total col) l) =
  fold_right (fun v acc => (Frame.count_eq v col + acc)%nat) 0%nat l.
Proof.
  induction l as [|v l IH]; simpl; [reflexivity|]. rewrite IH. reflexivity.
Qed.

Lemma sum_percentages_metrics (title : string -> string) (total : nat)
    (col l : list cell) :
  sum_percentages (map (metric_of title total col) l) ==
  inject_Z (Z.of_nat (sum_values (map (metric_of title total col) l))) /
  inject_Z (Z.of_nat total) * 100.
Proof.
  induction l as [|v l IH]; simpl.
  - unfold Qdiv. ring.
  - rewrite IH. rewrite Nat2Z.inj_add, inject_Z_plus.
    unfold Qdiv. ring.
Qed.

Lemma metrics_of_app (t1 t2 : list event) :
  metrics_of (t1 ++ t2) = metrics_of t1 ++ metrics_of t2.
Proof. apply flat_map_app. Qed.

Lemma metrics_of_events (title : string -> string) (total : nat)
    (col l : list cell) :
  metrics_of (map (metric_event title total col) l) =
  map (metric_of title total col) l.
Proof.
  induction l as [|c l IH]; [reflexivity|].
  cbn [map metrics_of flat_map metric_event app].
  fold (metrics_of (map (metric_event title total col) l)). rewrite IH.
  destruct (metric_of title total col c) as [[label value] delta].
  reflexivity.
Qed.

(** A column of strings with a row has a value that is not missing. *)
Lemma strings_not_all_missing (col : list cell) :
  forallb is_string_cell col = true -> col <> [] ->
  forallb is_missing col = false.
Proof.
  destruct col as [|[s | q |] col]; simpl; try discriminate; [|reflexivity].
  intros _ H. exfalso. apply H. reflexivity.
Qed.

Section View.

Context {Obj FV : Type} (L : Lib Obj FV).

(** *** The word clouds *)

Lemma word_clouds_outcome (g : globals Obj) :
  only_missing_images L ->
  exists t,
    word_clouds L g = (g, t, Ok tt)
    /\ metrics_of t = []
    /\ ((exists before,
            t = before ++ images_not_found /\
            (length (filter is_image t) < 3)%nat)
        \/ (exists i1 i2 i3,
               filter is_image t = [StImage i1; StImage i2; StImage i3] /\
               existsb is_error_notice t = false)).
Proof.
  intros Hmiss.
  cbv [word_clouds Run.bind Run.emit Run.try_except Run.lift].
  destruct (image_open L "images/positif.png") as [i1 | e1] eqn:E1.
  - destruct (image_open L "images/negatif.png") as [i2 | e2] eqn:E2.
    + destruct (image_open L "images/seluruh kata.png") as [i3 | e3] eqn:E3.
      * eexists. split; [reflexivity|]. split; [reflexivity|].
        right. exists i1, i2, i3. split; reflexivity.
      * rewrite (Hmiss _ _ E3).
        eexists. split; [reflexivity|]. split; [reflexivity|]. left.
        exists [Markdown "### ☁️ Word Cloud Analysis"; Columns [1; 1; 1]%nat;
                Markdown "#### 😊 Word Cloud Positif"; StImage i1;
                Markdown "#### 😞 Word Cloud Negatif"; StImage i2;
                Markdown "#### 😐 Word Cloud Keseluruhan"].
        split; [reflexivity | simpl; lia].
    + rewrite (Hmiss _ _ E2).
      eexists. split; [reflexivity|]. split; [reflexivity|]. left.
      exists [Markdown "### ☁️ Word Cloud Analysis"; Columns [1; 1; 1]%nat;
              Markdown "#### 😊 Word Cloud Positif"; StImage i1;
              Markdown "#### 😞 Word Cloud Negatif"].
      split; [reflexivity | simpl; lia].
  - rewrite (Hmiss _ _ E1).
    eexists. split; [reflexivity|]. split; [reflexivity|]. left.
    exists [Markdown "### ☁️ Word Cloud Analysis"; Columns [1; 1; 1]%nat;
            Markdown "#### 😊 Word Cloud Positif"].
    split; [reflexivity | simpl; lia].
Qed.


(** *** The metrics *)

Lemma metrics_loop (total : nat) (col xs : list cell) (g : globals Obj) :
  forallb is_string_cell xs = true ->
  (xs <> [] -> total <> 0%nat) ->
  Run.for_each xs (sentiment_metric L total col) g =
    (g, map (metric_event (str_title L) total col) xs, Ok tt).
Proof.
  intros Hs Ht. induction xs as [|c xs IH]; [reflexivity|].
  simpl in Hs. apply andb_prop in Hs as [Hc Hs].
  destruct total as [|total]; [exfalso; apply Ht; [discriminate | reflexivity]|].
  destruct c as [s | q |]; try discriminate.
  cbn [Run.for_each]. unfold Run.bind at 1.
  assert (E : sentiment_metric L (S total) col (CStr s) g =
              (g, [metric_event (str_title L) (S total) col (CStr s)], Ok tt))
    by reflexivity.
  rewrite E, IH; [reflexivity | assumption | intros _; discriminate].
Qed.

Lemma metrics_loop_raises (total : nat) (col xs : list cell)
    (g : globals Obj) (c : cell) :
  In c xs -> is_string_cell c = false -> total <> 0%nat ->
  exists t msg,
    Run.for_each xs (sentiment_metric L total col) g =
      (g, t, Err (Raise AttributeError msg)).
Proof.
  intros Hin Hc Ht. destruct total as [|total]; [congruence|].
  induction xs as [|x xs IH]; [contradiction|].
  cbn [Run.for_each]. unfold Run.bind at 1.
  destruct x as [s | q |].
  - assert (E : sentiment_metric L (S total) col (CStr s) g =
                (g, [metric_event (str_title L) (S total) col (CStr s)],
                 Ok tt))
      by reflexivity.
    rewrite E. destruct Hin as [<- | Hin]; [discriminate Hc|].
    destruct (IH Hin) as (t & msg & ->). eauto.
  - eexists. eexists. reflexivity.
  - eexists. eexists. reflexivity.
Qed.

(** The view on a frame whose [label] column has no value to count:
    [px.bar] raises before any chart is drawn. *)
Lemma visualisasi_without_labels (m v : option Obj) (df : table)
    (col : list cell) :
  Frame.getitem "label" df = Ok col ->
  forallb is_missing col = true ->
  exists msg,
    visualisasi L (Globals m v (Some df)) =
      (Globals m v (Some df),
       [Markdown "## 📈 Visualisasi Hasil Sentimen";
        Tabs ["📊 Distribusi Sentimen"; "☁️ Word Cloud";
              "📈 Analisis Detail"];
        Columns [1; 1]%nat],
       Err (Raise ValueError msg)).
Proof.
  intros Hcol Hmiss.
  cbv [visualisasi Run.bind Run.emit Run.get_df Run.lift g_df px_bar].
  rewrite (getitem_has_column _ _ Hcol), Hcol. cbv beta iota.
  rewrite Hmiss. eexists. reflexivity.
Qed.

(** The view on a frame that has a [label] column with a value to count,
    once the word clouds and the loop over the labels are known. *)
Lemma visualisasi_with_labels (m v : option Obj) (df : table)
    (col : list cell) (clouds loop : list event) (r : result unit) :
  Frame.getitem "label" df = Ok col ->
  forallb is_missing col = false ->
  word_clouds L (Globals m v (Some df)) =
    (Globals m v (Some df), clouds, Ok tt) ->
  Run.for_each (Frame.unique col) (sentiment_metric L (Frame.len df) col)
    (Globals m v (Some df)) = (Globals m v (Some df), loop, r) ->
  visualisasi L (Globals m v (Some df)) =
    (Globals m v (Some df),
     charts_tab col ++ clouds ++ detail_tab_head ++ loop ++
     match r with Ok _ => [donut col] | Err _ => [] end,
     r).
Proof.
  intros Hcol Hbar Hw Hl.
  cbv [visualisasi Run.bind Run.emit Run.get_df Run.lift g_df px_bar].
  rewrite (getitem_has_column _ _ Hcol), Hcol. cbv beta iota.
  rewrite Hbar. cbv beta iota.
  rewrite Hw. cbv beta iota. rewrite Hl.
  destruct r as [[] | e]; cbn [app charts_tab detail_tab_head];
    rewrite ?app_nil_r; reflexivity.
Qed.

(** X12.  On a frame with at least one row whose labels are all
    strings, the detail tab shows one metric for each distinct label, in
    order of first appearance, titled by what [str.title] makes of the
    label, with the number of rows that carry it and that number as a
    percentage of the rows.  The values add up to the number of rows and
    the percentages to 100.  The view returns.  On a frame without a row
    the view raises [ValueError] at the bar chart instead and shows no
    metric. *)
Theorem metrics_partition_the_rows
    (m v : option Obj) (df : table) (col : list cell) :
  only_missing_images L ->
  Frame.getitem "label" df = Ok col ->
  forallb is_string_cell col = true ->
  length col = Frame.len df ->
  (col <> [] ->
   result_of (visualisasi L (Globals m v (Some df))) = Ok tt
   /\ metrics_of (trace_of (visualisasi L (Globals m v (Some df)))) =
      map (metric_of (str_title L) (Frame.len df) col) (Frame.unique col)
   /\ sum_values
        (metrics_of (trace_of (visualisasi L (Globals m v (Some df))))) =
      Frame.len df
   /\ sum_percentages
        (metrics_of (trace_of (visualisasi L (Globals m v (Some df))))) ==
      100)
  /\ (col = [] ->
      (exists msg,
         result_of (visualisasi L (Globals m v (Some df))) =
           Err (Raise ValueError msg))
      /\ metrics_of (trace_of (visualisasi L (Globals m v (Some df)))) = []).
Proof.
  intros Himg Hcol Hs Hlen. split.
  2: { intros ->.
       destruct (@visualisasi_without_labels m v df [] Hcol eq_refl)
         as (msg & ->).
       split; [exists msg; reflexivity | reflexivity]. }
  intros Hne.
  destruct (word_clouds_outcome (Globals m v (Some df)) Himg)
    as (clouds & Hw & Hm & _).
  assert (Hloop : Run.for_each (Frame.unique col)
                    (sentiment_metric L (Frame.len df) col)
                    (Globals m v (Some df)) =
                  (Globals m v (Some df),
                   map (metric_event (str_title L) (Frame.len df) col)
                     (Frame.unique col),
                   Ok tt)).
  { apply metrics_loop; [apply unique_strings; assumption|].
    intros _ Hz. rewrite <- Hlen in Hz.
    destruct col; [apply Hne; reflexivity | discriminate]. }
  rewrite (visualisasi_with_labels Hcol
             (strings_not_all_missing Hs Hne) Hw Hloop).
  unfold result_of, trace_of. cbv [fst snd].
  assert (Hmet : metrics_of
                   (charts_tab col ++ clouds ++ detail_tab_head ++
                    map (metric_event (str_title L) (Frame.len df) col)
                      (Frame.unique col)
                    ++ [donut col]) =
                 map (metric_of (str_title L) (Frame.len df) col)
                   (Frame.unique col)).
  { rewrite !metrics_of_app, Hm, metrics_of_events. simpl.
    apply app_nil_r. }
  rewrite Hmet.
  assert (Hsum : sum_values
                   (map (metric_of (str_title L) (Frame.len df) col)
                      (Frame.unique col)) =
                 Frame.len df).
  { rewrite sum_values_metrics, <- Hlen.
    apply counts_add_up; [apply unique_from_nodup | assumption|].
    intros x Hx. apply unique_covers_strings; assumption. }
  split; [reflexivity|]. split; [reflexivity|]. split; [exact Hsum|].
  rewrite sum_percentages_metrics, Hsum.
  assert (Hz : ~ inject_Z (Z.of_nat (Frame.len df)) == 0).
  { rewrite <- Hlen. destruct col; [congruence|].
    unfold Qeq. simpl. lia. }
  field. exact Hz.
Qed.

(** X13.  On a frame with at least one row whose [label] column holds a
    value that is not a string (a missing value, say): when the column
    also holds a value that is not missing, the charts of the first tab
    are drawn and the view raises [AttributeError] in the loop over the
    labels, when it takes the title of the value that is not a string;
    when every value of the column is missing, the view raises
    [ValueError] at the bar chart, before any chart.  Nothing catches
    either. *)
Theorem non_string_label_raises
    (m v : option Obj) (df : table) (col : list cell) (c : cell) :
  only_missing_images L ->
  Frame.getitem "label" df = Ok col ->
  In c col ->
  is_string_cell c = false ->
  Frame.len df <> 0%nat ->
  (forallb is_missing col = false ->
   (exists msg,
      result_of (visualisasi L (Globals m v (Some df))) =
        Err (Raise AttributeError msg))
   /\ (exists rest,
         trace_of (visualisasi L (Globals m v (Some df))) =
           charts_tab col ++ rest))
  /\ (forallb is_missing col = true ->
      (exists msg,
         result_of (visualisasi L (Globals m v (Some df))) =
           Err (Raise ValueError msg))
      /\ existsb is_chart
           (trace_of (visualisasi L (Globals m v (Some df)))) = false).
Proof.
  intros Himg Hcol Hin Hc Hlen. split.
  2: { intros Hmiss.
       destruct (@visualisasi_without_labels m v df col Hcol Hmiss)
         as (msg & ->).
       split; [exists msg; reflexivity | reflexivity]. }
  intros Hbar.
  destruct (word_clouds_outcome (Globals m v (Some df)) Himg)
    as (clouds & Hw & _ & _).
  destruct (unique_from_covers [] col c Hin) as (y & [[] | Hy] & Hsame).
  assert (Hyk : is_string_cell y = false)
    by (rewrite (same_value_kind _ _ Hsame); assumption).
  destruct (@metrics_loop_raises (Frame.len df) col (Frame.unique col)
              (Globals m v (Some df)) y Hy Hyk Hlen) as (t & msg & Hl).
  rewrite (visualisasi_with_labels Hcol Hbar Hw Hl).
  split; [exists msg; reflexivity|].
  eexists. reflexivity.
Qed.

End View.

End VisualisasiView.

(** ** More on the page as a whole *)

Module PageMore.

Import PyStr Builtins Props Shape RunFacts RunMore App AppFacts Loading Page.

Lemma has_column_getitem (name : string) (df : table) :
  Frame.has_column name df = true ->
  exists col, Frame.getitem name df = Ok col.
Proof.
  unfold Frame.has_column, Frame.columns.
  induction df as [|[k old] df IH]; simpl; [discriminate|].
  rewrite (String.eqb_sym name k).
  destruct (String.eqb k name); simpl; eauto.
Qed.

Section Page.

Context {Obj FV : Type} (L : Lib Obj FV).

(** X14.  With a frame loaded the Dashboard never raises: the test
    ['label' in df.columns] guards the subscript [df['label']].  It shows
    its heading, followed by the pie chart of the labels exactly when the
    frame has a [label] column. *)
Theorem dashboard_guards_the_subscript (m v : option Obj) (df : table) :
  dashboard (Globals m v (Some df)) =
    (Globals m v (Some df),
     Markdown "### 📊 Distribusi Sentimen Cepat" ::
     match Frame.getitem "label" df with
     | Ok col => [PlotlyChart (PxPie "Distribusi Sentimen Mobile JKN" col)]
     | Err _ => []
     end,
     Ok tt).
Proof.
  cbv [dashboard Run.bind Run.emit Run.get_df Run.lift Run.ret g_df
       df_columns df_getitem].
  change (existsb (String.eqb "label") (Frame.columns df))
    with (Frame.has_column "label" df).
  destruct (Frame.has_column "label" df) eqn:E.
  - destruct (has_column_getitem _ _ E) as [col ->]. reflexivity.
  - rewrite (LoadingMore.getitem_missing _ _ E). reflexivity.
Qed.

(** X15.  Without a frame ([df] is [None]) the page returns, footer
    drawn, for every view but the Dashboard, whatever the artifacts are
    and do; with the Dashboard selected it raises. *)
Theorem page_without_dataset_returns_iff (u : ui) (m v : option Obj) :
  result_of (page L u (Globals m v None)) = Ok tt <->
  ui_option u <> Dashboard.
Proof.
  rewrite page_eq. unfold view.
  destruct (ui_option u) eqn:Ho.
  - rewrite dashboard_without_df. unfold result_of. simpl.
    split; [discriminate | congruence].
  - rewrite dataset_without_df. unfold result_of. simpl.
    split; [discriminate | reflexivity].
  - pose proof (PredictionMore.prediksi_manual_always_returns L u
                  (Globals m v None)) as [[] H].
    unfold result_of in *.
    destruct (prediksi_manual L u (Globals m v None)) as [[g1 t1] r1].
    simpl in H. subst r1. simpl. split; [discriminate | reflexivity].
  - rewrite visualisasi_without_df. unfold result_of. simpl.
    split; [discriminate | reflexivity].
Qed.

(** *** The footer *)

Ltac walk_no_footer :=
  walk_traces; try (intros H; discriminate H).

Lemma load_models_no_footer : traces not_footer (load_models L).
Proof. unfold load_models. walk_no_footer. Qed.

Lemma load_data_no_footer : traces not_footer (load_data L).
Proof. unfold load_data. walk_no_footer. Qed.

Lemma dashboard_no_footer : traces not_footer (@dashboard Obj).
Proof. unfold dashboard. walk_no_footer. Qed.

Lemma dataset_no_footer u : traces not_footer (@dataset Obj u).
Proof. unfold dataset. walk_no_footer. Qed.

Lemma visualisasi_no_footer : traces not_footer (visualisasi L).
Proof.
  unfold visualisasi, word_clouds, sentiment_metric. walk_no_footer.
Qed.

Lemma prediksi_manual_no_footer u : traces not_footer (prediksi_manual L u).
Proof.
  unfold prediksi_manual.
  apply traces_bind; [apply traces_emit; discriminate | intros _].
  apply traces_bind; [apply traces_get_model | intros model].
  apply traces_bind; [apply traces_get_vectorizer | intros vectorizer].
  destruct model, vectorizer; try apply traces_ret.
  repeat (apply traces_bind; [apply traces_emit; discriminate | intros _]).
  destruct (ui_button u); [|apply traces_ret].
  destruct (truthy (strip (ui_user_input u)));
    [|apply traces_emit; discriminate].
  apply traces_try_except; [|intros e; apply traces_emit; discriminate].
  unfold predict_block.
  apply traces_bind;
    [apply traces_call_transform; discriminate | intros x].
  apply traces_bind; [apply traces_call_predict; discriminate | intros ls].
  apply traces_bind; [apply traces_lift | intros hasil].
  apply traces_bind;
    [apply traces_call_decision_function; discriminate | intros ms].
  apply traces_bind; [apply traces_lift | intros confidence].
  apply traces_bind; [apply traces_lift | intros label].
  destruct (styling label) as [emoji color].
  apply traces_bind; [apply traces_lift | intros shown].
  apply traces_emit. discriminate.
Qed.

Lemma view_no_footer u : traces not_footer (view L u).
Proof.
  unfold view. destruct (ui_option u).
  - apply dashboard_no_footer.
  - apply dataset_no_footer.
  - apply prediksi_manual_no_footer.
  - apply visualisasi_no_footer.
Qed.

Lemma not_in_no_footer (t : list event) :
  Forall not_footer t -> ~ In (Html Footer) t.
Proof.
  intros H Hin. rewrite Forall_forall in H. exact (H _ Hin eq_refl).
Qed.

(** The footer is in the trace of the page exactly when the page
    returned. *)
Lemma page_footer (u : ui) (g : globals Obj) :
  In (Html Footer) (trace_of (page L u g)) <->
  result_of (page L u g) = Ok tt.
Proof.
  rewrite page_eq.
  pose proof (view_no_footer u g) as Hv. unfold trace_of, result_of in *.
  destruct (view L u g) as [[g1 t1] [[] | e]]; cbv [fst snd] in *.
  - split; [reflexivity|]. intros _.
    apply in_or_app. right. apply in_or_app. right. simpl. auto.
  - split; [|discriminate]. intros Hin. exfalso.
    apply in_app_or in Hin as [Hin | Hin].
    + simpl in Hin. destruct Hin as [H | [H | []]]; discriminate H.
    + exact (not_in_no_footer Hv Hin).
Qed.

(** X16.  In every run of the script the footer is drawn exactly when the
    script ran to its end: an exception that is not caught, in a loader
    or in a view, leaves the page without its footer, and nothing else
    does. *)
Theorem footer_iff_run_returns (u : ui) :
  In (Html Footer) (trace_of (run L u)) <-> result_of (run L u) = Ok tt.
Proof.
  rewrite run_eq.
  pose proof (load_models_no_footer (Globals None None None)) as H0.
  unfold trace_of in H0.
  destruct (load_models L (Globals None None None)) as [[g0 t0] [ld | e]];
    cbv [fst snd] in H0.
  - cbv zeta.
    pose proof (load_data_no_footer (Globals (fst ld) (snd ld) None)) as H1.
    unfold trace_of in H1.
    destruct (load_data L (Globals (fst ld) (snd ld) None))
      as [[g1 t1] [df | e]]; cbv [snd] in H1.
    + pose proof (page_footer u (Globals (fst ld) (snd ld) df)) as Hp.
      unfold trace_of, result_of in *.
      destruct (page L u (Globals (fst ld) (snd ld) df)) as [[g2 t2] r2].
      cbv [snd fst] in *. rewrite <- Hp.
      split.
      * intros Hin. apply in_app_or in Hin as [Hin | Hin];
          [simpl in Hin;
           destruct Hin as [H | [H | [H | []]]]; discriminate H|].
        apply in_app_or in Hin as [Hin | Hin];
          [destruct (not_in_no_footer H0 Hin)|].
        apply in_app_or in Hin as [Hin | Hin];
          [destruct (not_in_no_footer H1 Hin) | assumption].
      * intros Hin. apply in_or_app. right. apply in_or_app. right.
        apply in_or_app. right. assumption.
    + unfold trace_of, result_of. cbv [snd fst].
      split; [|discriminate]. intros Hin. exfalso.
      apply in_app_or in Hin as [Hin | Hin];
        [simpl in Hin;
         destruct Hin as [H | [H | [H | []]]]; discriminate H|].
      apply in_app_or in Hin as [Hin | Hin].
      * exact (not_in_no_footer H0 Hin).
      * exact (not_in_no_footer H1 Hin).
  - unfold trace_of, result_of. cbv [snd fst].
    split; [|discriminate]. intros Hin. exfalso.
    apply in_app_or in Hin as [Hin | Hin];
      [simpl in Hin;
       destruct Hin as [H | [H | [H | []]]]; discriminate H|].
    exact (not_in_no_footer H0 Hin).
Qed.

(** *** Which artifacts are bound *)








End Page.

End PageMore.

(** ** The further statements on the fixtures *)

Module EvidenceMore.

Import PyStr Builtins Props Shape App Fixture.
Import PredictionMore DatasetView LoadingMore VisualisasiView PageMore.

Local Open Scope Q_scope.

(** X2 on a review the toy classifier answers. *)
Lemma click_gets_one_answer_witness :
  exists calls answer,
    trace_of (prediksi_manual healthy (click "error terus x")
                loaded_globals) =
      prediction_form ++ calls ++ [answer]
    /\ forallb is_call calls = true
    /\ is_answer answer = true.
Proof.
  exact (@click_gets_one_answer _ _ healthy (click "error terus x")
           model_file vectorizer_file None eq_refl).
Defined.

Lemma abc_not_blank : strip (ui_user_input (click "abc")) <> EmptyString.
Proof. intros H. vm_compute in H. discriminate H. Defined.

(** X3 on a vectorizer that raises and on a classifier that raises. *)
Lemma failure_stops_the_calls_witness :
  prediksi_manual failing_transform (click "abc") loaded_globals =
    (loaded_globals,
     prediction_form ++
     [CallTransform ["abc"%string]; prediction_error vocabulary_error],
     Ok tt)
  /\ prediksi_manual failing_predict (click "abc") loaded_globals =
       (loaded_globals,
        prediction_form ++
        [CallTransform ["abc"%string]; CallPredict;
         prediction_error shape_error],
        Ok tt).
Proof.
  split.
  - exact (proj1 (@failure_stops_the_calls _ _ failing_transform
                    (click "abc") model_file vectorizer_file None
                    eq_refl abc_not_blank)
             vocabulary_error vectorizer_file eq_refl).
  - exact (proj2 (@failure_stops_the_calls _ _ failing_predict
                    (click "abc") model_file vectorizer_file None
                    eq_refl abc_not_blank)
             ["abc"%string] vectorizer_file shape_error model_file
             eq_refl eq_refl).
Defined.

(** X4 on a classifier that returns no label. *)
Lemma empty_prediction_is_reported_witness :
  exists e,
    exn_cls e = IndexError /\
    prediksi_manual empty_predict (click "abc") loaded_globals =
      (loaded_globals,
       prediction_form ++
       [CallTransform ["abc"%string]; CallPredict; prediction_error e],
       Ok tt).
Proof.
  exact (@empty_prediction_is_reported _ _ empty_predict (click "abc")
           model_file vectorizer_file None ["abc"%string]
           vectorizer_file model_file eq_refl abc_not_blank
           eq_refl eq_refl).
Defined.

Lemma stemmed_reviews_rectangular : rectangular stemmed_reviews.
Proof. repeat constructor. Defined.

(** X7 on the three reviews, with the last entry selected. *)
Lemma dataset_shows_whole_frame_witness :
  dataset (UI Dataset "" false 4)
    (Globals (Some model_file) (Some vectorizer_file)
       (Some stemmed_reviews)) =
    (Globals (Some model_file) (Some vectorizer_file)
       (Some stemmed_reviews),
     dataset_preamble 3 3 ++
     [DataFrame stemmed_reviews; download_button stemmed_reviews],
     Ok tt).
Proof.
  exact (@dataset_shows_whole_frame _ (UI Dataset "" false 4)
           (Some model_file) (Some vectorizer_file) stemmed_reviews
           stemmed_reviews_rectangular (or_introl eq_refl)).
Defined.

(** X8 on the healthy fixture. *)
Lemma load_data_keeps_shape_witness :
  exists df,
    read_csv healthy "data/hasil_preprocessing_mobile_jkn.csv" = Ok df
    /\ unbound_globals = unbound_globals /\ @nil event = []
    /\ Frame.columns stemmed_reviews = Frame.columns df
    /\ map (fun kc => length (snd kc)) stemmed_reviews =
       map (fun kc => length (snd kc)) df
    /\ (forall other, other <> "stemming"%string ->
                      Frame.getitem other stemmed_reviews =
                      Frame.getitem other df).
Proof.
  exact (@load_data_keeps_shape _ _ healthy unbound_globals unbound_globals
           [] stemmed_reviews eq_refl).
Defined.

(** X9 on a file without the column. *)
Lemma load_data_needs_the_stemming_column_witness :
  load_data without_stemming unbound_globals =
    (unbound_globals, [], Err (Raise KeyError "'stemming'")).
Proof.
  exact (@load_data_needs_the_stemming_column _ _ without_stemming
           unbound_globals no_stemming_column eq_refl eq_refl).
Defined.

Lemma blank_stemming_has_no_string (x : string) :
  ~ In (CStr x) [CNaN; CNaN].
Proof. intros [H | [H | []]]; discriminate H. Defined.

(** X10 on a file whose [stemming] cells are all missing. *)
Lemma load_data_without_string_cells_witness :
  load_data with_blank_stemming unbound_globals =
    (unbound_globals, [], Ok (Some blank_stemming)).
Proof.
  exact (@load_data_without_string_cells _ _ with_blank_stemming
           unbound_globals blank_stemming [CNaN; CNaN] eq_refl eq_refl
           blank_stemming_has_no_string).
Defined.


Lemma healthy_only_missing : only_missing_images healthy.
Proof. intros file e. discriminate. Defined.


(** X12 on the three reviews: two metrics, [Positif] 2 and [Negatif] 1. *)
Lemma metrics_partition_the_rows_witness :
  (result_of (visualisasi healthy
                (Globals None None (Some stemmed_reviews))) = Ok tt
   /\ metrics_of (trace_of (visualisasi healthy
                              (Globals None None (Some stemmed_reviews)))) =
      map (metric_of ascii_title 3
             [CStr "positif"; CStr "negatif"; CStr "positif"])
        [CStr "positif"; CStr "negatif"]
   /\ sum_values
        (metrics_of (trace_of (visualisasi healthy
                                 (Globals None None (Some stemmed_reviews)))))
      = 3%nat
   /\ sum_percentages
        (metrics_of (trace_of (visualisasi healthy
                                 (Globals None None (Some stemmed_reviews)))))
      == 100)
  /\ map (fun m => (fst (fst m), snd (fst m)))
       (metrics_of (trace_of (visualisasi healthy
                                (Globals None None (Some stemmed_reviews)))))
     = [("Positif"%string, 2%nat); ("Negatif"%string, 1%nat)].
Proof.
  split; [|reflexivity].
  apply (proj1 (@metrics_partition_the_rows _ _ healthy None None
                  stemmed_reviews
                  [CStr "positif"; CStr "negatif"; CStr "positif"]
                  healthy_only_missing eq_refl eq_refl eq_refl)).
  discriminate.
Defined.

(** X13 on a frame with a labelled row and a row whose label is
    missing. *)
Lemma non_string_label_raises_witness :
  (exists msg,
     result_of (visualisasi healthy
                  (Globals None None (Some unlabelled_row))) =
       Err (Raise AttributeError msg))
  /\ (exists rest,
        trace_of (visualisasi healthy
                    (Globals None None (Some unlabelled_row))) =
          charts_tab [CStr "positif"; CNaN] ++ rest).
Proof.
  apply (proj1 (@non_string_label_raises _ _ healthy None None
                  unlabelled_row
                  [CStr "positif"; CNaN] CNaN healthy_only_missing eq_refl
                  (or_intror (or_introl eq_refl)) eq_refl
                  (fun H : Frame.len unlabelled_row = 0%nat =>
                     O_S 1 (eq_sym H)))).
  reflexivity.
Defined.

End EvidenceMore.

(** ** An image that does not open *)

Module Images.

Import PyStr PyStrFacts Builtins Props Shape RunFacts RunMore App AppFacts.
Import Loading.

Section Runs.

Context {Obj FV : Type} (L : Lib Obj FV).

(** X18.  With a frame whose [label] column holds a value that is not
    missing (so that the bar chart can be drawn), when the first word
    cloud fails to open for another reason than a missing file, the
    exception is not caught: the Visualisation view raises it after the
    two charts and the heading of the first cloud, and the detail tab is
    not drawn. *)
Theorem unreadable_image_raises
    (m v : option Obj) (df : table) (col : list cell) (e : exn) :
  Frame.getitem "label" df = Ok col ->
  forallb is_missing col = false ->
  image_open L "images/positif.png" = Err e ->
  is_file_not_found e = false ->
  visualisasi L (Globals m v (Some df)) =
    (Globals m v (Some df), charts_tab col ++ first_cloud_head, Err e).
Proof.
  intros Hcol Hbar Himg Hf.
  cbv [visualisasi Run.bind Run.emit Run.get_df Run.lift g_df px_bar].
  rewrite (getitem_has_column _ _ Hcol), Hcol. cbv beta iota.
  rewrite Hbar. cbv beta iota.
  cbv [word_clouds Run.bind Run.emit Run.try_except Run.lift].
  rewrite Himg, Hf. reflexivity.
Qed.

End Runs.

End Images.

(** ** This statement on the fixtures *)

Module EvidenceImages.

Import PyStr Builtins Props Shape App Fixture Images.

Local Open Scope Q_scope.

(** X18 on a first image that is not an image. *)
Lemma unreadable_image_raises_witness :
  visualisasi unreadable_image (Globals None None (Some stemmed_reviews)) =
    (Globals None None (Some stemmed_reviews),
     charts_tab [CStr "positif"; CStr "negatif"; CStr "positif"] ++
     first_cloud_head,
     Err unidentified_image).
Proof.
  exact (@unreadable_image_raises _ _ unreadable_image None None
           stemmed_reviews
           [CStr "positif"; CStr "negatif"; CStr "positif"]
           unidentified_image eq_refl eq_refl eq_refl eq_refl).
Defined.

End EvidenceImages.
